(** * Swap request validation and transaction assembly

    A shallow embedding of the swap server's core: the helper functions of
    [utils/helpers.ts] (chain and token resolution, amount conversion,
    request validation) and the [SwapService] class of
    [services/swapService.ts], followed by the properties the
    specification states about them.

    Conventions of the embedding.
    - A JavaScript string is a [string]; every character is one code unit
      of the ASCII range, and case mapping and white space are the ASCII
      ones.  Code points outside that range are outside the model.
    - A thrown exception is a value of [JsError]; a computation that may
      throw returns a [result].
    - The three remote operations of the exchange SDK are functions from
      their arguments to a [result]; every call is recorded, in order, in a
      log, so that what was sent to a collaborator can be stated.
    - [console.error] and [console.debug] output is not modelled. *)

From Stdlib Require Import ZArith NArith List String Ascii Bool Lia PrimFloat.
Import ListNotations.

Local Open Scope string_scope.
Local Open Scope list_scope.
Local Open Scope Z_scope.

Infix "+++" := String.append (right associativity, at level 60).

(** ** Characters and strings *)

Module Js.

Definition code (c : ascii) : N := N_of_ascii c.

Definition isDigit (c : ascii) : bool := (48 <=? code c)%N && (code c <=? 57)%N.
Definition isUpper (c : ascii) : bool := (65 <=? code c)%N && (code c <=? 90)%N.
Definition isLower (c : ascii) : bool := (97 <=? code c)%N && (code c <=? 122)%N.

(** [a-fA-F0-9] *)
Definition isHexDigit (c : ascii) : bool :=
  isDigit c
  || ((97 <=? code c)%N && (code c <=? 102)%N)
  || ((65 <=? code c)%N && (code c <=? 70)%N).

(** White space and line terminators below code 128: TAB, LF, VT, FF, CR
    and SPACE. *)
Definition isWhiteSpace (c : ascii) : bool :=
  ((9 <=? code c)%N && (code c <=? 13)%N) || (code c =? 32)%N.

Definition toLowerChar (c : ascii) : ascii :=
  if isUpper c then ascii_of_N (code c + 32) else c.

Definition toUpperChar (c : ascii) : ascii :=
  if isLower c then ascii_of_N (code c - 32) else c.

Fixpoint map (f : ascii -> ascii) (s : string) : string :=
  match s with
  | EmptyString => EmptyString
  | String c r => String (f c) (map f r)
  end.

(** [String.prototype.toLowerCase] and [toUpperCase]. *)
Definition toLowerCase (s : string) : string := map toLowerChar s.
Definition toUpperCase (s : string) : string := map toUpperChar s.

Definition chars (s : string) : list ascii := list_ascii_of_string s.
Definition ofChars (l : list ascii) : string := string_of_list_ascii l.

Fixpoint dropWhile (p : ascii -> bool) (l : list ascii) : list ascii :=
  match l with
  | [] => []
  | c :: r => if p c then dropWhile p r else l
  end.

Definition trimChars (l : list ascii) : list ascii :=
  rev (dropWhile isWhiteSpace (rev (dropWhile isWhiteSpace l))).

(** [String.prototype.trim]. *)
Definition trim (s : string) : string := ofChars (trimChars (chars s)).

(** [Array.prototype.join]. *)
Fixpoint join (sep : string) (l : list string) : string :=
  match l with
  | [] => ""
  | [x] => x
  | x :: r => x +++ sep +++ join sep r
  end.

(** A string is falsy exactly when it is empty. *)
Definition nonEmpty (s : string) : bool :=
  match s with EmptyString => false | _ => true end.

(** ** Digit strings and integers *)

Definition digitVal (c : ascii) : Z := Z.of_N (code c) - 48.

(** Value of a hexadecimal digit, [None] for any other character. *)
Definition hexVal (c : ascii) : option Z :=
  if isDigit c then Some (Z.of_N (code c) - 48)
  else if ((97 <=? code c)%N && (code c <=? 102)%N)%bool then Some (Z.of_N (code c) - 87)
  else if ((65 <=? code c)%N && (code c <=? 70)%N)%bool then Some (Z.of_N (code c) - 55)
  else None.

(** Value of a list of digits in base [b]; [None] when the list is empty
    or holds a character that is not a digit of that base. *)
Fixpoint digitsIn (b : Z) (acc : Z) (l : list ascii) : option Z :=
  match l with
  | [] => Some acc
  | c :: r =>
      match hexVal c with
      | Some v => if v <? b then digitsIn b (acc * b + v) r else None
      | None => None
      end
  end.

Definition radixLiteral (b : Z) (l : list ascii) : option Z :=
  match l with
  | [] => None
  | _ => digitsIn b 0 l
  end.

(** Decimal value of a list of characters that are all digits. *)
Fixpoint decVal (acc : Z) (l : list ascii) : Z :=
  match l with
  | [] => acc
  | c :: r => decVal (acc * 10 + digitVal c) r
  end.

Definition allDigits (l : list ascii) : bool := forallb isDigit l.

(** Decimal digits of a natural number, most significant first; [fuel]
    bounds the number of digits produced. *)
Fixpoint digitsOf (fuel : nat) (n : Z) (acc : list ascii) : list ascii :=
  match fuel with
  | O => acc
  | S f =>
      let acc' := ascii_of_N (Z.to_N (n mod 10) + 48) :: acc in
      if n <? 10 then acc' else digitsOf f (n / 10) acc'
  end.

(** [BigInt.prototype.toString]: decimal digits, with a minus sign for a
    negative value. *)
Definition bigIntToString (z : Z) : string :=
  let m := Z.abs z in
  let ds := digitsOf (S (Z.to_nat (Z.log2 m))) m [] in
  ofChars (if z <? 0 then "-"%char :: ds else ds).

Definition isChar (c : ascii) (d : ascii) : bool := Ascii.eqb c d.

(** Base and digits of a [0x], [0o] or [0b] literal (either case of the
    letter). *)
Definition radixPrefix (l : list ascii) : option (Z * list ascii) :=
  match l with
  | z :: p :: r =>
      if negb (isChar z "0") then None
      else if isChar p "x" || isChar p "X" then Some (16, r)
      else if isChar p "o" || isChar p "O" then Some (8, r)
      else if isChar p "b" || isChar p "B" then Some (2, r)
      else None
  | _ => None
  end.

(** The literal forms the [BigInt] function accepts in a string, after
    trimming: an empty string is zero, an optionally signed run of decimal
    digits, or an unsigned [0x], [0o] or [0b] literal.  [None] stands for
    the [SyntaxError] it throws. *)
Definition stringToBigInt (s : string) : option Z :=
  let l := trimChars (chars s) in
  match l with
  | [] => Some 0
  | c :: r =>
      match radixPrefix l with
      | Some (b, ds) => radixLiteral b ds
      | None =>
          if isChar c "-" then
            if allDigits r && negb (Nat.eqb (List.length r) 0)
            then Some (- decVal 0 r) else None
          else if isChar c "+" then
            if allDigits r && negb (Nat.eqb (List.length r) 0)
            then Some (decVal 0 r) else None
          else if allDigits l then Some (decVal 0 l) else None
      end
  end.

(** ** Numbers read from strings *)

(** The numbers that [parseInt] and the chain tables produce: an integer
    or [NaN]. *)
Inductive number :=
| NaN
| Int (z : Z).

Fixpoint span (p : ascii -> bool) (l : list ascii) : list ascii * list ascii :=
  match l with
  | [] => ([], [])
  | c :: r => if p c then let (a, b) := span p r in (c :: a, b) else ([], l)
  end.

(** [parseInt(s, 10)]: leading white space is skipped, a sign is read, and
    the longest run of decimal digits is the value; no digit gives [NaN]. *)
Definition parseInt (s : string) : number :=
  let l := dropWhile isWhiteSpace (chars s) in
  let (neg, r) :=
    match l with
    | c :: r => if isChar c "-" then (true, r)
                else if isChar c "+" then (false, r) else (false, l)
    | [] => (false, l)
    end in
  match fst (span isDigit r) with
  | [] => NaN
  | ds => Int (if neg then - decVal 0 ds else decVal 0 ds)
  end.

(** The mathematical value of a numeric string, before it is rounded to a
    double: [Decimal neg m e] is [m * 10^e], negated when [neg]. *)
Inductive numeric :=
| NotANumber
| Infinite (neg : bool)
| Decimal (neg : bool) (m : Z) (e : Z).

(** The exponent part of a decimal literal: nothing, or [e] or [E], an
    optional sign and at least one digit. *)
Definition exponentPart (l : list ascii) : option Z :=
  match l with
  | [] => Some 0
  | c :: r =>
      if isChar c "e" || isChar c "E" then
        let (neg, ds) :=
          match r with
          | d :: r' => if isChar d "-" then (true, r')
                       else if isChar d "+" then (false, r') else (false, r)
          | [] => (false, r)
          end in
        match ds with
        | [] => None
        | _ => if allDigits ds
               then Some (if neg then - decVal 0 ds else decVal 0 ds)
               else None
        end
      else None
  end.

(** An unsigned decimal literal: [Infinity], or digits with an optional
    fraction and exponent, at least one digit before or after the point. *)
Definition unsignedDecimal (neg : bool) (l : list ascii) : numeric :=
  if String.eqb (ofChars l) "Infinity" then Infinite neg
  else
    let (ip, r1) := span isDigit l in
    let (fp, r2) :=
      match r1 with
      | c :: r => if isChar c "." then span isDigit r else ([], r1)
      | [] => ([], r1)
      end in
    match ip ++ fp with
    | [] => NotANumber
    | ds =>
        match exponentPart r2 with
        | Some x => Decimal neg (decVal 0 ds) (x - Z.of_nat (List.length fp))
        | None => NotANumber
        end
    end.

(** [Number(s)] on a string, as the value of its literal: white space is
    trimmed, the empty string is zero, then a [0x], [0o] or [0b] literal
    or a signed decimal literal; anything else is [NaN]. *)
Definition Number (s : string) : numeric :=
  let l := trimChars (chars s) in
  match l with
  | [] => Decimal false 0 0
  | c :: r =>
      match radixPrefix l with
      | Some (b, ds) =>
          match radixLiteral b ds with
          | Some v => Decimal false v 0
          | None => NotANumber
          end
      | None =>
          if isChar c "-" then unsignedDecimal true r
          else if isChar c "+" then unsignedDecimal false r
          else unsignedDecimal false l
      end
  end.

Definition isNaN (n : numeric) : bool :=
  match n with NotANumber => true | _ => false end.

(** A positive value rounds to the double zero exactly when it is at most
    [2^-1075], half of the least positive double. *)
Definition roundsToZero (m e : Z) : bool :=
  if 0 <=? e then false else m * 2 ^ 1075 <=? 10 ^ (- e).

(** [n <= 0] on the double that [n] rounds to. *)
Definition leZero (n : numeric) : bool :=
  match n with
  | NotANumber => false
  | Infinite neg => neg
  | Decimal neg m e => neg || (m =? 0) || roundsToZero m e
  end.

(** ** Values of unknown shape

    Responses of the collaborators are typed [any] in the source.  Numbers
    in them are integers, printed in plain decimal digits. *)

#[warnings="-register-all"]
Inductive JsValue :=
| JsUndefined
| JsNull
| JsBool (b : bool)
| JsNumber (z : Z)
| JsString (s : string)
| JsObject (fields : list (string * JsValue)).

Fixpoint lookup {A : Type} (k : string) (l : list (string * A)) : option A :=
  match l with
  | [] => None
  | (k', v) :: r => if String.eqb k k' then Some v else lookup k r
  end.

(** Truthiness, as tested by [!v], [v || w] and [v ? a : b]. *)
Definition truthy (v : JsValue) : bool :=
  match v with
  | JsUndefined | JsNull => false
  | JsBool b => b
  | JsNumber z => negb (z =? 0)
  | JsString s => nonEmpty s
  | JsObject _ => true
  end.

(** [v.k]: the property of an object, [undefined] when it has none; a
    primitive has neither of the properties the code reads. *)
Definition get (v : JsValue) (k : string) : JsValue :=
  match v with
  | JsObject fs => match lookup k fs with Some x => x | None => JsUndefined end
  | _ => JsUndefined
  end.

(** [v?.k] *)
Definition getOpt (v : JsValue) (k : string) : JsValue :=
  match v with
  | JsUndefined | JsNull => JsUndefined
  | _ => get v k
  end.

(** [a || b] *)
Definition or (a b : JsValue) : JsValue := if truthy a then a else b.

(** The string a value turns into when it becomes an error message. *)
Definition toString (v : JsValue) : string :=
  match v with
  | JsUndefined => "undefined"
  | JsNull => "null"
  | JsBool true => "true"
  | JsBool false => "false"
  | JsNumber z => bigIntToString z
  | JsString s => s
  | JsObject _ => "[object Object]"
  end.

End Js.

(** ** Exceptions *)

(** A thrown value.  [isAxiosError] is the flag the HTTP client sets on its
    own errors and [response] the body of the reply they carry
    ([error.response.data]); [None] when there was no reply. *)
Record JsError := {
  err_name : string;
  message : string;
  isAxiosError : bool;
  response : option Js.JsValue
}.

(** [new Error(msg)] *)
Definition Error (msg : string) : JsError :=
  {| err_name := "Error"; message := msg; isAxiosError := false; response := None |}.

(** The errors the language itself raises; the wording of their messages
    is the engine's. *)
Definition TypeError (msg : string) : JsError :=
  {| err_name := "TypeError"; message := msg; isAxiosError := false; response := None |}.
Definition SyntaxError (msg : string) : JsError :=
  {| err_name := "SyntaxError"; message := msg; isAxiosError := false; response := None |}.

Inductive result (A : Type) :=
| Throw (e : JsError)
| Ret (a : A).
Arguments Throw {A} e.
Arguments Ret {A} a.

(** ** types/index.ts *)

Inductive Mode := market.

Record SwapRequest := {
  amount : string;
  fromToken : string;
  toToken : string;
  fromAddress : string;
  fromChain : string;
  mode : option Mode;
  slippage : option float
}.

Record Transaction := {
  chainId : Js.number;
  to : string;
  value : string;
  data : option string;
  gasPrice : option string;
  gasLimit : option string
}.

Record SwapResponse := {
  transactions : list Transaction;
  quote : Js.JsValue
}.

(** [ChainInfo]; its fields are [id] and [name] in the source. *)
Record ChainInfo := {
  chain_id : Z;
  chain_name : string
}.

Definition SUPPORTED_CHAINS : list (string * ChainInfo) := [
  ("ETHEREUM", {| chain_id := 1; chain_name := "Ethereum" |});
  ("ARBITRUM", {| chain_id := 42161; chain_name := "Arbitrum One" |});
  ("OPTIMISM", {| chain_id := 10; chain_name := "Optimism" |});
  ("BASE", {| chain_id := 8453; chain_name := "Base" |});
  ("POLYGON", {| chain_id := 137; chain_name := "Polygon" |});
  ("AVALANCHE", {| chain_id := 43114; chain_name := "Avalanche" |});
  ("SEPOLIA", {| chain_id := 11155111; chain_name := "Sepolia" |});
  ("ARBITRUM_SEPOLIA", {| chain_id := 421614; chain_name := "Arbitrum Sepolia" |});
  ("BASE_SEPOLIA", {| chain_id := 84532; chain_name := "Base Sepolia" |});
  ("OPTIMISM_SEPOLIA", {| chain_id := 11155420; chain_name := "Optimism Sepolia" |})
].

(** ** utils/helpers.ts: the tables

    The tables are object literals read with [table[key]], and a table
    is read here as the list of its own entries.  The properties an
    object inherits do not change a result: the keys of the first level
    are upper-cased names, which no inherited property has, or lower-cased
    names, and the two inherited properties with such a name
    ([constructor] and [__proto__]) lead to objects without any
    upper-cased property, which is what the second level asks for. *)

Definition CHAIN_NAME_MAPPING : list (string * string) := [
  ("ETHEREUM", "ethereum");
  ("ARBITRUM", "arbitrum");
  ("OPTIMISM", "optimism");
  ("BASE", "base");
  ("POLYGON", "polygon");
  ("AVALANCHE", "avalanche");
  ("SEPOLIA", "sepolia");
  ("ARBITRUM_SEPOLIA", "arbitrum-sepolia");
  ("BASE_SEPOLIA", "base-sepolia");
  ("OPTIMISM_SEPOLIA", "optimism-sepolia")
].

Definition FALLBACK_TOKEN_ADDRESSES : list (string * list (string * string)) := [
  ("ethereum", [
     ("USDC", "0xA0b86a33E6441031aAd3f2bEDf49EC5Bc2f42E45");
     ("DAI", "0x6B175474E89094C44Da98b954EedeAC495271d0F");
     ("USDT", "0xdAC17F958D2ee523a2206206994597C13D831ec7");
     ("ETH", "0xeeeeeeeeeeeeeeeeeeeeeeeeeeeeeeeeeeeeeeee");
     ("SRC", "0xSRC_TOKEN_ADDRESS");
     ("DEST", "0xDEST_TOKEN_ADDRESS")]);
  ("arbitrum-sepolia", [
     ("USDC", "0x75faf114eafb1BDbe2F0316DF893fd58CE46AA4d");
     ("USDT", "0x8b6a2D4Db73bA8A9fFD9b7D38A0D4D6A3e0fcAAD")]);
  ("optimism-sepolia", [
     ("USDC", "0x5fd84259d66Cd46123540766Be93DFE6D43130D7");
     ("USDT", "0x82a9d4A8Ce4B8C0bd8A2C60E8a8b6cD9e4D99e5F")]);
  ("base-sepolia", [
     ("USDC", "0x036CbD53842c5426634e7929541eC2318f3dCF7e")]);
  ("sepolia", [
     ("USDC", "0x1c7D4B196Cb0C7B01d743Fbc6116a902379C7238");
     ("USDT", "0xaA8E23Fb1079EA71e0a56F48a2aA51851D8433D0")])
].

Definition FALLBACK_TOKEN_DECIMALS : list (string * list (string * Z)) := [
  ("ethereum", [
     ("USDC", 6); ("DAI", 18); ("USDT", 6); ("ETH", 18); ("SRC", 18); ("DEST", 18)]);
  ("arbitrum-sepolia", [("USDC", 6); ("USDT", 6)]);
  ("optimism-sepolia", [("USDC", 6); ("USDT", 6)]);
  ("base-sepolia", [("USDC", 6)]);
  ("sepolia", [("USDC", 6); ("USDT", 6)])
].

(** What [getChainId] of the external directory hands back: a number or a
    string of digits. *)
Inductive ChainIdValue :=
| IdNumber (n : Js.number)
| IdString (s : string).

(** [CHAIN_NAME_MAPPING[chainName.toUpperCase()] || chainName.toLowerCase()] *)
Definition normalizeChainName (chainName : string) : string :=
  match Js.lookup (Js.toUpperCase chainName) CHAIN_NAME_MAPPING with
  | Some n => if Js.nonEmpty n then n else Js.toLowerCase chainName
  | None => Js.toLowerCase chainName
  end.

(** [/^0x[a-fA-F0-9]{40}$/.test(address)] *)
Definition isValidAddress (address : string) : bool :=
  match Js.chars address with
  | z :: x :: r =>
      Js.isChar z "0" && Js.isChar x "x"
      && Nat.eqb (List.length r) 40 && forallb Js.isHexDigit r
  | _ => false
  end.

(** ** The exchange SDK, as the service sees it *)

Inductive SwapSide := SELL | BUY.

(** Argument of [quote.getQuote]. *)
Record QuoteParams := {
  q_srcToken : string;
  q_destToken : string;
  q_amount : string;
  q_userAddress : string;
  q_srcDecimals : Z;
  q_destDecimals : Z;
  q_side : SwapSide;
  q_mode : Mode
}.

(** Argument of [swap.buildTx]. *)
Record BuildTxParams := {
  b_srcToken : string;
  b_destToken : string;
  b_srcAmount : string;
  b_slippage : float;
  b_priceRoute : Js.JsValue;
  b_userAddress : string
}.

(** What [swap.buildTx] resolves to; an absent field is [None]. *)
Record TxParams := {
  tx_to : option string;
  tx_data : option string;
  tx_value : option string;
  tx_gasPrice : option string;
  tx_gas : option string
}.

Record SimpleFetchSDK := {
  getQuote : QuoteParams -> result Js.JsValue;
  getSpender : result string;
  buildTx : BuildTxParams -> result (option TxParams)
}.

(** Argument of [constructSimpleSDK]; the HTTP client it is given is not
    part of the model. *)
Record SDKConfig := {
  cfg_chainId : Z;
  cfg_apiURL : string;
  cfg_version : string
}.

(** ** Calls to the collaborators, in order *)

Inductive Call :=
| CallGetQuote (p : QuoteParams)
| CallGetSpender
| CallBuildTx (p : BuildTxParams).

(** An asynchronous method of the service: it extends the log of remote
    calls and either throws or returns. *)
Definition M (A : Type) : Type := list Call -> result A * list Call.

Definition ret {A} (a : A) : M A := fun log => (Ret a, log).
Definition throw {A} (e : JsError) : M A := fun log => (Throw e, log).

Definition bind {A B} (m : M A) (k : A -> M B) : M B :=
  fun log =>
    match m log with
    | (Ret a, log') => k a log'
    | (Throw e, log') => (Throw e, log')
    end.

(** A synchronous helper called from an asynchronous method. *)
Definition lift {A} (r : result A) : M A := fun log => (r, log).

(** [try { body } catch (error) { throw handler(error) }] *)
Definition tryCatch {A} (body : M A) (handler : JsError -> JsError) : M A :=
  fun log =>
    match body log with
    | (Throw e, log') => (Throw (handler e), log')
    | r => r
    end.

Notation "x <- m ;; k" := (bind m (fun x => k))
  (at level 61, m at next level, right associativity).

Definition optTruthy (o : option string) : bool :=
  match o with Some s => Js.nonEmpty s | None => false end.

Definition isSome {A} (o : option A) : bool :=
  match o with Some _ => true | None => false end.

(** ** The unit conversion of the Ethereum library

    [getTokenAmount] converts with [parseUnits] of the Ethereum library,
    which the repository imports and does not contain.  In the service it
    is a parameter; this module holds the conversion as the specification
    describes it, for the statements about converted amounts. *)

Module Units.

Import Js.

(** Modelled from the spec: the valid numeric strings of the conversion,
    which is missing from the sources.  An amount is a decimal string: an
    optional minus sign, digits, and optionally a point and digits, with
    at least one digit in all.  The result is the sign, the digits before
    the point and the digits after it, and [None] for any other string. *)
Definition decimalNumber (l : list ascii) : option (bool * list ascii * list ascii) :=
  let negative := match l with c :: _ => isChar c "-" | [] => false end in
  let l1 := if negative then tl l else l in
  let (integer, r1) := span isDigit l1 in
  let r2 := match r1 with
            | c :: r => if isChar c "." then r else r1
            | [] => r1
            end in
  let (fraction, r3) := span isDigit r2 in
  match r3, integer ++ fraction with
  | [], _ :: _ => Some (negative, integer, fraction)
  | _, _ => None
  end.

Definition isDecimalNumber (l : list ascii) : bool := isSome (decimalNumber l).

(** Modelled from the spec: [parseUnits], the conversion of a decimal
    amount to base units, which belongs to the Ethereum library the
    helpers import and is missing from the sources.  The amount is
    multiplied by ten to the number of decimals and returned as an integer
    ("1" with 6 decimals is 1000000); a string that is not a valid numeric
    string is refused.  The spec gives the precision of the result, the
    decimals of the token, and not what becomes of the digits beyond it:
    [roundUp] tells, from the digits cut, whether the result is one base
    unit above the amount cut short.  It is asked only when a digit cut is
    not zero. *)
Definition parseUnits (roundUp : list ascii -> bool) (value : string) (decimals : Z)
  : result Z :=
  match decimalNumber (chars value) with
  | None => Throw (Error (value +++ " is not a valid numeric string"))
  | Some (negative, integer, fraction) =>
      let places := Z.to_nat decimals in
      let kept := firstn places fraction in
      let cut := skipn places fraction in
      let whole := decVal 0 (integer ++ kept)
                   * 10 ^ (decimals - Z.of_nat (List.length kept)) in
      let units := if existsb (fun c => negb (isChar c "0")) cut && roundUp cut
                   then whole + 1 else whole in
      Ret (if negative then - units else units)
  end.

End Units.

(** ** Vocabulary for digit strings *)

Module Shape.

Import Js.

(** The digits printed for a natural number: they read back as the
    number, there is at least one, and there are exactly as many as the
    number needs. *)
Definition printed (n : Z) (ds : list ascii) : Prop :=
  allDigits ds = true
  /\ decVal 0 ds = n
  /\ (1 <= List.length ds)%nat
  /\ n < 10 ^ Z.of_nat (List.length ds)
  /\ (List.length ds = 1%nat \/ 10 ^ (Z.of_nat (List.length ds) - 1) <= n).

(** No white space at all. *)
Definition noSpace (l : list ascii) : bool :=
  forallb (fun c => negb (isWhiteSpace c)) l.

(** The list is empty or its first character fails [p]. *)
Definition stops (p : ascii -> bool) (l : list ascii) : Prop :=
  match l with [] => True | c :: _ => p c = false end.

Definition sign (neg : bool) : list ascii := if neg then ["-"%char] else [].
Definition point (dot : bool) (fp : list ascii) : list ascii :=
  if dot then "."%char :: fp else [].

(** The shape of a decimal string: a sign, digits, and a point with
    digits, each of them possibly absent. *)
Record Parts (l : list ascii) (neg : bool) (ip : list ascii)
    (dot : bool) (fp : list ascii) : Prop := {
  parts_eq : l = sign neg ++ ip ++ point dot fp;
  parts_ip : allDigits ip = true;
  parts_fp : allDigits fp = true;
  parts_dot : dot = false -> fp = []
}.

(** A decimal number: a string of that shape with at least one digit. *)
Definition decimal (l : list ascii) : Prop :=
  exists neg ip dot fp, Parts l neg ip dot fp /\ ip ++ fp <> [].

(** A digit or the point. *)
Definition plain (c : ascii) : bool := isDigit c || isChar c ".".

End Shape.

(** ** Sample collaborators

    The stand-ins of the unit tests: a directory that knows Ethereum and
    three of its tokens, and an SDK whose three operations answer with
    fixed values. *)

Module Sample.

Definition sampleFromAddress : string := "0xd8dA6BF26964aF9D7eEd9e03E53415D37aA96045".

Definition samplePriceRoute : Js.JsValue :=
  Js.JsObject [
    ("srcToken", Js.JsString "0xSRC_TOKEN_ADDRESS");
    ("destToken", Js.JsString "0xDEST_TOKEN_ADDRESS");
    ("srcAmount", Js.JsString "1000000000000000000");
    ("destAmount", Js.JsString "2000000000000000000");
    ("userAddress", Js.JsString sampleFromAddress);
    ("details", Js.JsObject [])
  ].

Definition sampleTxRequest : TxParams :=
  {| tx_to := Some "0x1F98431c8aD98523631AE4a59f267346ea31F984";
     tx_data := Some "0x1234567890abcdef1234567890abcdef1234567890abcdef1234567890abcdef";
     tx_value := Some "0";
     tx_gasPrice := Some "10000000000";
     tx_gas := None |}.

Definition chainIdFromUtils (name : string) : result ChainIdValue :=
  if String.eqb name "ethereum" then Ret (IdNumber (Js.Int 1))
  else Throw (Error ("Unsupported chain: " +++ name)).

Definition tokens : list (string * (string * Z)) := [
  ("USDC", ("0xA0b86991c6218b36c1d19D4a2e9Eb0cE3606eB48", 6));
  ("DAI", ("0x6B175474E89094C44Da98b954EedeAC495271d0F", 18));
  ("ETH", ("0xEeeeeEeeeEeEeeEeEeEeeEEEeeeeEeeeeeeeEEeE", 18))
].

Definition tokenAddressFromUtils (chain symbol : string) : result (option string) :=
  if String.eqb chain "ethereum"
  then Ret (option_map fst (Js.lookup symbol tokens))
  else Throw (Error ("Unsupported chain: " +++ chain)).

Definition tokenDecimalsFromUtils (chain symbol : string) : result (option Z) :=
  if String.eqb chain "ethereum"
  then Ret (option_map snd (Js.lookup symbol tokens))
  else Throw (Error ("Unsupported chain: " +++ chain)).

(** The rounding of the samples, to the nearest base unit and a half
    upwards: the result goes up when the first digit cut is five or
    more. *)
Definition halfUp (cut : list ascii) : bool :=
  match cut with
  | c :: _ => 5 <=? Js.digitVal c
  | [] => false
  end.

(** A stand-in for the call encoder: the selector of [approve] followed by
    the arguments. *)
Definition encode (abi : unit) (functionName : string) (args : list string)
  : result string :=
  Ret ("0x095ea7b3:" +++ Js.join "," args).

Definition sdk (quoted : result Js.JsValue) : SimpleFetchSDK :=
  {| getQuote := fun _ => quoted;
     getSpender := Ret "0x1F98431c8aD98523631AE4a59f267346ea31F984";
     buildTx := fun _ => Ret (Some sampleTxRequest) |}.

Definition request (amount fromToken toToken : string) : SwapRequest :=
  {| amount := amount;
     fromToken := fromToken;
     toToken := toToken;
     fromAddress := sampleFromAddress;
     fromChain := "ETHEREUM";
     mode := None;
     slippage := None |}.

(** A quote in the shape the SDK gives for the market mode. *)
Definition marketQuote : Js.JsValue :=
  Js.JsObject [("market", samplePriceRoute)].

(** A quote without a destination amount. *)
Definition partialQuote : Js.JsValue :=
  Js.JsObject [("srcToken", Js.JsString "0xSRC_TOKEN_ADDRESS")].

(** An error of the HTTP client whose reply has neither a [message] nor an
    [error] field. *)
Definition badGateway : JsError :=
  {| err_name := "AxiosError";
     message := "Request failed with status code 502";
     isAxiosError := true;
     response := Some (Js.JsObject []) |}.

(** An error of the HTTP client whose reply carries a message. *)
Definition apiError : JsError :=
  {| err_name := "AxiosError";
     message := "Request failed with status code 400";
     isAxiosError := true;
     response := Some (Js.JsObject [("error", Js.JsString "No routes found with enough liquidity")]) |}.

End Sample.

Section Service.

(** *** Collaborators *)

(** The external chain and token directory. *)
Variable getChainIdFromUtils : string -> result ChainIdValue.
Variable getTokenAddressFromUtils : string -> string -> result (option string).
Variable getTokenDecimalsFromUtils : string -> string -> result (option Z).

(** The unit conversion and the call encoder of the Ethereum library, and
    the approval interface description of [utils/abis.ts]. *)
Variable parseUnits : string -> Z -> result Z.
Variable Abi : Type.
Variable APPROVE_ABI : Abi.
Variable encodeFunctionData : Abi -> string -> list string -> result string.

(** The exchange SDK. *)
Variable constructSimpleSDK : SDKConfig -> SimpleFetchSDK.
Variable DEFAULT_VERSION : string.

(** *** utils/helpers.ts *)

Definition getChainIdForNetwork (chainName : string) : result Js.number :=
  let normalizedChainName := normalizeChainName chainName in
  match getChainIdFromUtils normalizedChainName with
  | Ret (IdString s) => Ret (Js.parseInt s)
  | Ret (IdNumber n) => Ret n
  | Throw _ =>
      match Js.lookup (Js.toUpperCase chainName) SUPPORTED_CHAINS with
      | Some supportedChain => Ret (Js.Int (chain_id supportedChain))
      | None => Throw (Error ("Unsupported chain: " +++ chainName))
      end
  end.

Definition getTokenAddressForChain (chainName tokenSymbol : string) : result string :=
  let normalizedChainName := normalizeChainName chainName in
  let tokenAddress :=
    match getTokenAddressFromUtils normalizedChainName (Js.toUpperCase tokenSymbol) with
    | Ret a => a
    | Throw _ => None
    end in
  let tokenAddress :=
    if negb (optTruthy tokenAddress) then
      match Js.lookup normalizedChainName FALLBACK_TOKEN_ADDRESSES with
      | Some table => Js.lookup (Js.toUpperCase tokenSymbol) table
      | None => tokenAddress
      end
    else tokenAddress in
  match tokenAddress with
  | Some a =>
      if Js.nonEmpty a then Ret a
      else Throw (Error ("Token " +++ tokenSymbol +++ " not found on chain " +++ chainName))
  | None => Throw (Error ("Token " +++ tokenSymbol +++ " not found on chain " +++ chainName))
  end.

Definition getTokenDecimalsForChain (chainName tokenSymbol : string) : Z :=
  let normalizedChainName := normalizeChainName chainName in
  let decimals :=
    match getTokenDecimalsFromUtils normalizedChainName (Js.toUpperCase tokenSymbol) with
    | Ret d => d
    | Throw _ => None
    end in
  let decimals :=
    match decimals with
    | None =>
        match Js.lookup normalizedChainName FALLBACK_TOKEN_DECIMALS with
        | Some table => Js.lookup (Js.toUpperCase tokenSymbol) table
        | None => decimals
        end
    | Some _ => decimals
    end in
  match decimals with
  | None =>
      if existsb (String.eqb (Js.toUpperCase tokenSymbol)) ["USDC"; "USDT"]
      then 6 else 18
  | Some d => d
  end.

Definition getTokenAmount (amount chainName tokenSymbol : string) : result string :=
  let decimals := getTokenDecimalsForChain chainName tokenSymbol in
  match parseUnits amount decimals with
  | Ret parsed => Ret (Js.bigIntToString parsed)
  | Throw _ => Throw (Error ("Failed to parse token amount: " +++ amount))
  end.

Definition getTokenDecimals (chainName tokenSymbol : string) : Z :=
  getTokenDecimalsForChain chainName tokenSymbol.

Definition getChainId (chainName : string) : result Js.number :=
  getChainIdForNetwork chainName.

Definition getTokenAddress (chainName tokenSymbol : string) : result string :=
  getTokenAddressForChain chainName tokenSymbol.

Record ValidationResult := {
  isValid : bool;
  errors : list string
}.

(** [errors.push(msg)] when [failed]. *)
Definition pushIf (failed : bool) (msg : string) (errors : list string) : list string :=
  if failed then errors ++ [msg] else errors.

Definition validateSwapRequest (params : SwapRequest) : ValidationResult :=
  let errors : list string := [] in
  let errors :=
    pushIf (negb (Js.nonEmpty (amount params))
            || Js.isNaN (Js.Number (amount params))
            || Js.leZero (Js.Number (amount params)))
      "Invalid amount: must be a positive number" errors in
  let errors :=
    pushIf (negb (Js.nonEmpty (fromToken params))
            || String.eqb (Js.trim (fromToken params)) "")
      "From token is required" errors in
  let errors :=
    pushIf (negb (Js.nonEmpty (toToken params))
            || String.eqb (Js.trim (toToken params)) "")
      "To token is required" errors in
  let errors :=
    pushIf (negb (Js.nonEmpty (fromAddress params))
            || negb (isValidAddress (fromAddress params)))
      "Invalid from address format" errors in
  let errors :=
    pushIf (negb (Js.nonEmpty (fromChain params))
            || negb (isSome (Js.lookup (Js.toUpperCase (fromChain params)) SUPPORTED_CHAINS)))
      ("Unsupported chain: " +++ fromChain params) errors in
  let errors :=
    if Js.nonEmpty (fromChain params) && Js.nonEmpty (fromToken params)
       && isSome (Js.lookup (Js.toUpperCase (fromChain params)) SUPPORTED_CHAINS)
    then
      match getTokenAddressForChain (fromChain params) (fromToken params) with
      | Ret _ => errors
      | Throw _ =>
          errors ++ ["Token " +++ fromToken params +++ " not supported on " +++ fromChain params]
      end
    else errors in
  let errors :=
    if Js.nonEmpty (fromChain params) && Js.nonEmpty (toToken params)
       && isSome (Js.lookup (Js.toUpperCase (fromChain params)) SUPPORTED_CHAINS)
    then
      match getTokenAddressForChain (fromChain params) (toToken params) with
      | Ret _ => errors
      | Throw _ =>
          errors ++ ["Token " +++ toToken params +++ " not supported on " +++ fromChain params]
      end
    else errors in
  {| isValid := Nat.eqb (List.length errors) 0; errors := errors |}.

(** *** services/swapService.ts *)

Record SwapService := {
  simpleSDK : SimpleFetchSDK
}.

(** [new SwapService()] *)
Definition constructor : SwapService :=
  {| simpleSDK :=
       constructSimpleSDK
         {| cfg_chainId := 1;
            cfg_apiURL := "https://api.velora.xyz";
            cfg_version := DEFAULT_VERSION |} |}.

(** The remote calls, each recorded when it is made. *)
Definition callGetQuote (this : SwapService) (p : QuoteParams) : M Js.JsValue :=
  fun log => (getQuote (simpleSDK this) p, log ++ [CallGetQuote p]).

Definition callGetSpender (this : SwapService) : M string :=
  fun log => (getSpender (simpleSDK this), log ++ [CallGetSpender]).

Definition callBuildTx (this : SwapService) (p : BuildTxParams) : M (option TxParams) :=
  fun log => (buildTx (simpleSDK this) p, log ++ [CallBuildTx p]).

(** ['market' in quote]: a [TypeError] on anything but an object. *)
Definition hasMarket (quote : Js.JsValue) : result bool :=
  match quote with
  | Js.JsObject fields => Ret (isSome (Js.lookup "market" fields))
  | _ => Throw (TypeError "Cannot use 'in' operator to search for 'market'")
  end.

(** [BigInt(s).toString()] *)
Definition bigIntString (s : string) : result string :=
  match Js.stringToBigInt s with
  | Some z => Ret (Js.bigIntToString z)
  | None => Throw (SyntaxError ("Cannot convert " +++ s +++ " to a BigInt"))
  end.

(** [field ? BigInt(field).toString() : undefined] *)
Definition optBigIntString (field : option string) : result (option string) :=
  if optTruthy field then
    match field with
    | Some s => match bigIntString s with Ret r => Ret (Some r) | Throw e => Throw e end
    | None => Ret None
    end
  else Ret None.

(** The [catch] clause of both methods: an error of the HTTP client that
    carries a reply is replaced by a plain error whose message is taken
    from the reply; any other error is thrown again as it is. *)
Definition surfaceError (error : JsError) : JsError :=
  if isAxiosError error then
    match response error with
    | Some data =>
        let apiErrorMessage :=
          Js.or (Js.or (Js.getOpt data "message") (Js.getOpt data "error"))
                (Js.JsString "VeloraDEX API request failed") in
        Error (Js.toString apiErrorMessage)
    | None => error
    end
  else error.

(** The statements of the [try] block of [buildSwapTransaction]. *)
Definition buildSwapTransaction_try (this : SwapService) (request : SwapRequest)
  : M SwapResponse :=
    let validation := validateSwapRequest request in
    if negb (isValid validation) then
      throw (Error ("Invalid request: " +++ Js.join ", " (errors validation)))
    else
    let amount := amount request in
    let fromToken := fromToken request in
    let toToken := toToken request in
    let fromAddress := fromAddress request in
    let fromChain := fromChain request in
    let slippage := match slippage request with Some x => x | None => 0.5%float end in
    let mode := match mode request with Some m => m | None => market end in

    fromChainId <- lift (getChainId fromChain) ;;
    fromTokenAddress <- lift (getTokenAddress fromChain fromToken) ;;
    toTokenAddress <- lift (getTokenAddress fromChain toToken) ;;
    fromTokenAmount <- lift (getTokenAmount amount fromChain fromToken) ;;
    let fromTokenDecimals := getTokenDecimals fromChain fromToken in
    let toTokenDecimals := getTokenDecimals fromChain toToken in

    quote <- callGetQuote this
      {| q_srcToken := fromTokenAddress;
         q_destToken := toTokenAddress;
         q_amount := fromTokenAmount;
         q_userAddress := fromAddress;
         q_srcDecimals := fromTokenDecimals;
         q_destDecimals := toTokenDecimals;
         q_side := SELL;
         q_mode := mode |} ;;
    if negb (Js.truthy quote) then
      throw (Error "Failed to get quote from VeloraDEX")
    else
    let transactions : list Transaction := [] in
    inQuote <- lift (hasMarket quote) ;;
    let priceRoute := if (inQuote : bool) then Js.get quote "market" else quote in
    if negb (Js.truthy priceRoute) || negb (Js.truthy (Js.get priceRoute "destAmount")) then
      throw (Error "Invalid market quote received from VeloraDEX")
    else
    spender <- callGetSpender this ;;
    transactions <-
      (if negb (String.eqb (Js.toLowerCase fromTokenAddress)
                  "0xeeeeeeeeeeeeeeeeeeeeeeeeeeeeeeeeeeeeeeee")
          && negb (String.eqb (Js.toLowerCase fromTokenAddress)
                     "0x0000000000000000000000000000000000000000")
       then
         calldata <- lift (encodeFunctionData APPROVE_ABI "approve"
                             [spender; fromTokenAmount]) ;;
         let approveTransaction :=
           {| chainId := fromChainId;
              to := fromTokenAddress;
              value := "0";
              data := Some calldata;
              gasPrice := None;
              gasLimit := None |} in
         ret (transactions ++ [approveTransaction])
       else ret transactions) ;;
    txParams <- callBuildTx this
      {| b_srcToken := fromTokenAddress;
         b_destToken := toTokenAddress;
         b_srcAmount := fromTokenAmount;
         b_slippage := PrimFloat.mul slippage 100;
         b_priceRoute := priceRoute;
         b_userAddress := fromAddress |} ;;
    match txParams with
    | None => throw (Error "Failed to build swap transaction from VeloraDEX")
    | Some txParams =>
        if negb (optTruthy (tx_to txParams)) || negb (optTruthy (tx_data txParams)) then
          throw (Error "Failed to build swap transaction from VeloraDEX")
        else
        txGasPrice <- lift (optBigIntString (tx_gasPrice txParams)) ;;
        txGasLimit <- lift (optBigIntString (tx_gas txParams)) ;;
        let swapTransaction :=
          {| chainId := fromChainId;
             to := match tx_to txParams with Some a => a | None => "" end;
             data := tx_data txParams;
             value := if optTruthy (tx_value txParams)
                      then match tx_value txParams with Some v => v | None => "0" end
                      else "0";
             gasPrice := txGasPrice;
             gasLimit := txGasLimit |} in
        ret {| transactions := transactions ++ [swapTransaction];
               quote := priceRoute |}
    end.

Definition buildSwapTransaction (this : SwapService) (request : SwapRequest)
  : M SwapResponse :=
  tryCatch (buildSwapTransaction_try this request) surfaceError.

(** The statements of the [try] block of [getSwapQuote]. *)
Definition getSwapQuote_try (this : SwapService) (request : SwapRequest)
  : M Js.JsValue :=
    let validation := validateSwapRequest request in
    if negb (isValid validation) then
      throw (Error ("Invalid request: " +++ Js.join ", " (errors validation)))
    else
    let amount := amount request in
    let fromToken := fromToken request in
    let toToken := toToken request in
    let fromAddress := fromAddress request in
    let fromChain := fromChain request in
    let mode := match mode request with Some m => m | None => market end in

    fromChainId <- lift (getChainId fromChain) ;;
    fromTokenAmount <- lift (getTokenAmount amount fromChain fromToken) ;;
    fromTokenAddress <- lift (getTokenAddress fromChain fromToken) ;;
    toTokenAddress <- lift (getTokenAddress fromChain toToken) ;;
    let fromTokenDecimals := getTokenDecimals fromChain fromToken in
    let toTokenDecimals := getTokenDecimals fromChain toToken in

    quote <- callGetQuote this
      {| q_srcToken := fromTokenAddress;
         q_destToken := toTokenAddress;
         q_amount := fromTokenAmount;
         q_userAddress := fromAddress;
         q_srcDecimals := fromTokenDecimals;
         q_destDecimals := toTokenDecimals;
         q_side := SELL;
         q_mode := mode |} ;;
    if negb (Js.truthy quote) then
      throw (Error "Failed to get quote from VeloraDEX")
    else ret quote.

Definition getSwapQuote (this : SwapService) (request : SwapRequest)
  : M Js.JsValue :=
  tryCatch (getSwapQuote_try this request) surfaceError.

(** [validateTokens]: whether both tokens resolve on the chain; a failed
    resolution is caught and answered with [false]. *)
Definition validateTokens (this : SwapService) (fromChain fromToken toToken : string)
  : M bool :=
  fun log =>
    match getTokenAddress fromChain fromToken with
    | Throw _ => (Ret false, log)
    | Ret _ =>
        match getTokenAddress fromChain toToken with
        | Throw _ => (Ret false, log)
        | Ret _ => (Ret true, log)
        end
    end.

(** *** index.ts: the tool [build-swap-transactions] *)

(** The object the tool serialises; its fields are [transactionCount],
    [transactions], [quote] and [mode] in the source. *)
Record ToolPayload := {
  transactionCount : nat;
  payload_transactions : list Transaction;
  payload_quote : Js.JsValue;
  payload_mode : Mode
}.

(** What the tool answers: the text of its one content item and the
    [isError] flag, absent ([false]) on success. *)
Record ToolResult := {
  text : string;
  isError : bool
}.

(** [JSON.stringify(payload, null, 2)], and [error instanceof Error]. *)
Variable stringify : ToolPayload -> result string.
Variable instanceOfError : JsError -> bool.

Definition toolError (error : JsError) : ToolResult :=
  {| text := "Error building swap transactions: "
             +++ (if instanceOfError error then message error else "Unknown error");
     isError := true |}.

(** The handler of the tool: a service is constructed for each call. *)
Definition buildSwapTransactionsTool (args : SwapRequest)
  : list Call -> ToolResult * list Call :=
  fun log =>
    let swapRequest := args in
    let swapService := constructor in
    match buildSwapTransaction swapService swapRequest log with
    | (Ret result, log') =>
        match stringify
                {| transactionCount := List.length (transactions result);
                   payload_transactions := transactions result;
                   payload_quote := quote result;
                   payload_mode :=
                     match mode swapRequest with Some m => m | None => market end |}
        with
        | Ret json => ({| text := json; isError := false |}, log')
        | Throw error => (toolError error, log')
        end
    | (Throw error, log') => (toolError error, log')
    end.

(** *** Vocabulary of the statements *)

(** Two characters that differ at most in case. *)
Definition sameLetter (a b : ascii) : bool :=
  Ascii.eqb (Js.toLowerChar a) (Js.toLowerChar b).

(** Equality of strings up to the case of their letters. *)
Fixpoint equalsIgnoreCase (s t : string) : bool :=
  match s, t with
  | EmptyString, EmptyString => true
  | String a s', String b t' => sameLetter a b && equalsIgnoreCase s' t'
  | _, _ => false
  end.

(** The two addresses that stand for the native asset of a chain. *)
Definition NATIVE_E : string := "0xeeeeeeeeeeeeeeeeeeeeeeeeeeeeeeeeeeeeeeee".
Definition NATIVE_ZERO : string := "0x0000000000000000000000000000000000000000".

Definition nativeSentinel (address : string) : bool :=
  equalsIgnoreCase address NATIVE_E || equalsIgnoreCase address NATIVE_ZERO.

(** Case-insensitive equality, written without the case mapping of the
    code: the alphabet in capitals and in small letters; two characters
    agree when they are the same character or the two cases of one
    letter; two strings are equal up to case when they have the same
    length and their characters agree position by position. *)
Definition CAPITALS : string := "ABCDEFGHIJKLMNOPQRSTUVWXYZ".
Definition SMALLS : string := "abcdefghijklmnopqrstuvwxyz".

(** [a] and [b] stand at the same place of the two alphabets. *)
Fixpoint paired (capitals smalls : string) (a b : ascii) : bool :=
  match capitals, smalls with
  | String u capitals', String l smalls' =>
      (Ascii.eqb a u && Ascii.eqb b l) || paired capitals' smalls' a b
  | _, _ => false
  end.

Definition capitalOf (a b : ascii) : bool := paired CAPITALS SMALLS a b.

Definition sameUpToCase (a b : ascii) : bool :=
  Ascii.eqb a b || capitalOf a b || capitalOf b a.

Fixpoint equalUpToCase (s t : string) : bool :=
  match s, t with
  | EmptyString, EmptyString => true
  | String a s', String b t' => sameUpToCase a b && equalUpToCase s' t'
  | _, _ => false
  end.

(** The price route of a quote: its [market] property when it has one,
    the quote itself otherwise. *)
Definition priceRouteOf (quote : Js.JsValue) : Js.JsValue :=
  match quote with
  | Js.JsObject fields =>
      if isSome (Js.lookup "market" fields) then Js.get quote "market" else quote
  | _ => quote
  end.

(** The arguments of the two remote calls that carry the request. *)
Definition quoteArgs (request : SwapRequest) (src dest srcAmount : string) : QuoteParams :=
  {| q_srcToken := src;
     q_destToken := dest;
     q_amount := srcAmount;
     q_userAddress := fromAddress request;
     q_srcDecimals := getTokenDecimals (fromChain request) (fromToken request);
     q_destDecimals := getTokenDecimals (fromChain request) (toToken request);
     q_side := SELL;
     q_mode := match mode request with Some m => m | None => market end |}.

Definition buildArgs (request : SwapRequest) (src dest srcAmount : string)
    (priceRoute : Js.JsValue) : BuildTxParams :=
  {| b_srcToken := src;
     b_destToken := dest;
     b_srcAmount := srcAmount;
     b_slippage :=
       PrimFloat.mul (match slippage request with Some x => x | None => 0.5%float end) 100;
     b_priceRoute := priceRoute;
     b_userAddress := fromAddress request |}.

(** The approval transaction for a token, and the swap transaction made of
    a reply of [buildTx]. *)
Definition approvalFor (id : Js.number) (token calldata : string) : Transaction :=
  {| chainId := id; to := token; value := "0"; data := Some calldata;
     gasPrice := None; gasLimit := None |}.

Definition isSwapOf (id : Js.number) (txParams : TxParams) (t : Transaction) : Prop :=
  chainId t = id /\ Some (to t) = tx_to txParams /\ data t = tx_data txParams.

(** Everything a successful run of [buildSwapTransaction] went through. *)
Inductive Built (this : SwapService) (request : SwapRequest)
    (log : list Call) (resp : SwapResponse) (log' : list Call) : Prop :=
| built (id : Js.number) (src dest amt : string) (q : Js.JsValue)
    (spender : string) (tx : TxParams) (swap : Transaction)
    (Hvalid : isValid (validateSwapRequest request) = true)
    (HgetChainId : getChainId (fromChain request) = Ret id)
    (HgetSrc : getTokenAddress (fromChain request) (fromToken request) = Ret src)
    (HgetDest : getTokenAddress (fromChain request) (toToken request) = Ret dest)
    (HgetAmount :
       getTokenAmount (amount request) (fromChain request) (fromToken request) = Ret amt)
    (HgetQuote :
       getQuote (simpleSDK this) (quoteArgs request src dest amt) = Ret q)
    (HgetSpender : getSpender (simpleSDK this) = Ret spender)
    (HbuildTx :
       buildTx (simpleSDK this)
         (buildArgs request src dest amt (priceRouteOf q)) = Ret (Some tx))
    (Hlog :
       log' = log ++ [CallGetQuote (quoteArgs request src dest amt);
                      CallGetSpender;
                      CallBuildTx (buildArgs request src dest amt (priceRouteOf q))])
    (HisSwap : isSwapOf id tx swap)
    (HquoteOut : quote resp = priceRouteOf q)
    (Htransactions :
       if negb (String.eqb (Js.toLowerCase src) NATIVE_E)
          && negb (String.eqb (Js.toLowerCase src) NATIVE_ZERO)
       then exists calldata,
           encodeFunctionData APPROVE_ABI "approve" [spender; amt] = Ret calldata
           /\ transactions resp = [approvalFor id src calldata; swap]
       else transactions resp = [swap]).

(** The seven checks of the validator, each with the messages it adds. *)
Definition amountRejected (a : string) : bool :=
  negb (Js.nonEmpty a) || Js.isNaN (Js.Number a) || Js.leZero (Js.Number a).

Definition tokenMissing (t : string) : bool :=
  negb (Js.nonEmpty t) || String.eqb (Js.trim t) "".

Definition addressRejected (a : string) : bool :=
  negb (Js.nonEmpty a) || negb (isValidAddress a).

Definition chainSupported (c : string) : bool :=
  isSome (Js.lookup (Js.toUpperCase c) SUPPORTED_CHAINS).

Definition chainRejected (c : string) : bool :=
  negb (Js.nonEmpty c) || negb (chainSupported c).

Definition tokenUnresolved (c t : string) : bool :=
  Js.nonEmpty c && Js.nonEmpty t && chainSupported c
  && match getTokenAddressForChain c t with Ret _ => false | Throw _ => true end.

Definition report (failed : bool) (msg : string) : list string :=
  if failed then [msg] else [].

(** What the two tiers of the decimals lookup yield. *)
Definition directoryDecimals (chainName tokenSymbol : string) : option Z :=
  match getTokenDecimalsFromUtils (normalizeChainName chainName)
          (Js.toUpperCase tokenSymbol) with
  | Ret d => d
  | Throw _ => None
  end.

Definition fallbackDecimals (chainName tokenSymbol : string) : option Z :=
  match Js.lookup (normalizeChainName chainName) FALLBACK_TOKEN_DECIMALS with
  | Some table => Js.lookup (Js.toUpperCase tokenSymbol) table
  | None => None
  end.

(** How the [catch] clause turns the error [e] it caught into the error
    [e'] it throws. *)
Inductive Surfaced (e : JsError) : JsError -> Prop :=
| surfaced_message data :
    isAxiosError e = true -> response e = Some data ->
    Js.truthy (Js.getOpt data "message") = true ->
    Surfaced e (Error (Js.toString (Js.getOpt data "message")))
| surfaced_error data :
    isAxiosError e = true -> response e = Some data ->
    Js.truthy (Js.getOpt data "message") = false ->
    Js.truthy (Js.getOpt data "error") = true ->
    Surfaced e (Error (Js.toString (Js.getOpt data "error")))
| surfaced_default data :
    isAxiosError e = true -> response e = Some data ->
    Js.truthy (Js.getOpt data "message") = false ->
    Js.truthy (Js.getOpt data "error") = false ->
    Surfaced e (Error "VeloraDEX API request failed")
| surfaced_unchanged :
    isAxiosError e = false \/ response e = None ->
    Surfaced e e.

(** What the two tiers of the address lookup yield. *)
Definition directoryAddress (chainName tokenSymbol : string) : option string :=
  match getTokenAddressFromUtils (normalizeChainName chainName)
          (Js.toUpperCase tokenSymbol) with
  | Ret a => a
  | Throw _ => None
  end.

Definition fallbackAddress (chainName tokenSymbol : string) : option string :=
  match Js.lookup (normalizeChainName chainName) FALLBACK_TOKEN_ADDRESSES with
  | Some table => Js.lookup (Js.toUpperCase tokenSymbol) table
  | None => None
  end.

(** The remote calls a run of [buildSwapTransaction] may have made, for
    the resolved addresses and amount: none of them or the first ones, in
    the order quote, spender, transaction. *)
Definition callsInOrder (this : SwapService) (request : SwapRequest)
    (calls : list Call) : Prop :=
  calls = []
  \/ exists src dest amt,
      getTokenAddress (fromChain request) (fromToken request) = Ret src
      /\ getTokenAddress (fromChain request) (toToken request) = Ret dest
      /\ getTokenAmount (amount request) (fromChain request) (fromToken request)
         = Ret amt
      /\ (calls = [CallGetQuote (quoteArgs request src dest amt)]
          \/ calls = [CallGetQuote (quoteArgs request src dest amt); CallGetSpender]
          \/ exists q,
              getQuote (simpleSDK this) (quoteArgs request src dest amt) = Ret q
              /\ calls = [CallGetQuote (quoteArgs request src dest amt);
                          CallGetSpender;
                          CallBuildTx
                            (buildArgs request src dest amt (priceRouteOf q))]).

(** An error as the [catch] clause lets it out: not an error of the HTTP
    client that carries a reply. *)
Definition plainError (e : JsError) : Prop :=
  isAxiosError e = false \/ response e = None.

(** The swap transaction made of a reply of [buildTx] and of its two gas
    fields once normalised. *)
Definition swapFor (id : Js.number) (tx : TxParams)
    (txGasPrice txGasLimit : option string) : Transaction :=
  {| chainId := id;
     to := match tx_to tx with Some a => a | None => "" end;
     value := match tx_value tx with
              | Some v => if Js.nonEmpty v then v else "0"
              | None => "0"
              end;
     data := tx_data tx;
     gasPrice := txGasPrice;
     gasLimit := txGasLimit |}.

(** A gas field of the reply and the field of the transaction made of
    it: nothing for an absent or empty field, else the decimal digits of
    the integer the field denotes. *)
Definition gasNormalised (field out : option string) : Prop :=
  match field with
  | None => out = None
  | Some g =>
      if Js.nonEmpty g
      then exists z, Js.stringToBigInt g = Some z /\ out = Some (Js.bigIntToString z)
      else out = None
  end.

(** *** Steps of the asynchronous methods *)

Ltac unfold_steps H :=
  cbv beta delta [bind lift ret throw tryCatch callGetQuote callGetSpender callBuildTx] in H.

Lemma buildSwapTransaction_try_Ret this request log resp log' :
  buildSwapTransaction_try this request log = (Ret resp, log') ->
  Built this request log resp log'.
Proof.
  unfold buildSwapTransaction_try. intros H. unfold_steps H.
  destruct (isValid (validateSwapRequest request)) eqn:Hvalid; [|discriminate H].
  cbn [negb] in H.
  destruct (getChainId (fromChain request)) as [|id] eqn:Hid; [discriminate H|].
  destruct (getTokenAddress (fromChain request) (fromToken request))
    as [|src] eqn:Hsrc; [discriminate H|].
  destruct (getTokenAddress (fromChain request) (toToken request))
    as [|dest] eqn:Hdest; [discriminate H|].
  destruct (getTokenAmount (amount request) (fromChain request) (fromToken request))
    as [|amt] eqn:Hamt; [discriminate H|].
  fold (quoteArgs request src dest amt) in H.
  destruct (getQuote (simpleSDK this) (quoteArgs request src dest amt))
    as [|q] eqn:Hq; [discriminate H|].
  destruct (Js.truthy q) eqn:Htq; [|discriminate H].
  cbn [negb] in H.
  destruct (hasMarket q) as [|inq] eqn:Hin; [discriminate H|].
  assert (Hpr : (if inq then Js.get q "market" else q) = priceRouteOf q).
  { unfold hasMarket in Hin. destruct q; try discriminate Hin.
    injection Hin as <-. reflexivity. }
  rewrite Hpr in H.
  destruct (negb (Js.truthy (priceRouteOf q))
            || negb (Js.truthy (Js.get (priceRouteOf q) "destAmount")));
    [discriminate H|].
  destruct (getSpender (simpleSDK this)) as [|sp] eqn:Hsp; [discriminate H|].
  fold (buildArgs request src dest amt (priceRouteOf q)) in H.
  fold NATIVE_E NATIVE_ZERO in H.
  destruct (negb (String.eqb (Js.toLowerCase src) NATIVE_E)
            && negb (String.eqb (Js.toLowerCase src) NATIVE_ZERO)) eqn:Hnat.
  - destruct (encodeFunctionData APPROVE_ABI "approve" [sp; amt])
      as [|cd] eqn:Hcd; [discriminate H|].
    destruct (buildTx (simpleSDK this) (buildArgs request src dest amt (priceRouteOf q)))
      as [|[tx|]] eqn:Htx; try discriminate H.
    destruct (negb (optTruthy (tx_to tx)) || negb (optTruthy (tx_data tx))) eqn:Hok;
      [discriminate H|].
    destruct (optBigIntString (tx_gasPrice tx)) as [|gp]; [discriminate H|].
    destruct (optBigIntString (tx_gas tx)) as [|gl]; [discriminate H|].
    apply orb_false_elim in Hok as [Hto _].
    destruct (tx_to tx) as [a|] eqn:Ha; [|discriminate Hto].
    match type of H with
    | (Ret {| transactions := _ ++ [?t]; quote := _ |}, _) = _ =>
        injection H as <- <-; apply built with id src dest amt q sp tx t; auto
    end.
    + rewrite <- !app_assoc. reflexivity.
    + unfold isSwapOf. cbn. rewrite Ha. auto.
    + rewrite Hnat. exists cd. split; [assumption|reflexivity].
  - destruct (buildTx (simpleSDK this) (buildArgs request src dest amt (priceRouteOf q)))
      as [|[tx|]] eqn:Htx; try discriminate H.
    destruct (negb (optTruthy (tx_to tx)) || negb (optTruthy (tx_data tx))) eqn:Hok;
      [discriminate H|].
    destruct (optBigIntString (tx_gasPrice tx)) as [|gp]; [discriminate H|].
    destruct (optBigIntString (tx_gas tx)) as [|gl]; [discriminate H|].
    apply orb_false_elim in Hok as [Hto _].
    destruct (tx_to tx) as [a|] eqn:Ha; [|discriminate Hto].
    match type of H with
    | (Ret {| transactions := _ ++ [?t]; quote := _ |}, _) = _ =>
        injection H as <- <-; apply built with id src dest amt q sp tx t; auto
    end.
    + rewrite <- !app_assoc. reflexivity.
    + unfold isSwapOf. cbn. rewrite Ha. auto.
    + rewrite Hnat. reflexivity.
Qed.

Lemma tryCatch_Ret {A} (body : M A) handler log (a : A) log' :
  tryCatch body handler log = (Ret a, log') <-> body log = (Ret a, log').
Proof.
  unfold tryCatch. destruct (body log) as [[e|x] l]; split; intros H;
    try discriminate H; exact H.
Qed.

Lemma tryCatch_Throw {A} (body : M A) handler log e log' :
  body log = (Throw e, log') ->
  tryCatch body handler log = (Throw (handler e), log').
Proof. unfold tryCatch. intros ->. reflexivity. Qed.

Lemma buildSwapTransaction_Ret this request log resp log' :
  buildSwapTransaction this request log = (Ret resp, log') ->
  Built this request log resp log'.
Proof.
  unfold buildSwapTransaction. intros H. apply tryCatch_Ret in H.
  now apply buildSwapTransaction_try_Ret.
Qed.

(** *** Case-insensitive comparison *)

Lemma eqb_toLowerCase s t :
  Js.toLowerCase t = t ->
  String.eqb (Js.toLowerCase s) t = equalsIgnoreCase s t.
Proof.
  unfold Js.toLowerCase.
  revert t. induction s as [|a s IH]; intros [|b t] Ht; cbn; try reflexivity.
  cbn in Ht. injection Ht as Hb Ht'.
  unfold sameLetter. rewrite Hb, (IH t Ht').
  destruct (Ascii.eqb (Js.toLowerChar a) b); reflexivity.
Qed.

Lemma native_test src :
  negb (String.eqb (Js.toLowerCase src) NATIVE_E)
  && negb (String.eqb (Js.toLowerCase src) NATIVE_ZERO)
  = negb (nativeSentinel src).
Proof.
  unfold nativeSentinel.
  rewrite !eqb_toLowerCase by reflexivity.
  now rewrite negb_orb.
Qed.

(** The comparison of lower-cased strings is equality up to case: the
    two agree on every pair of characters. *)
Lemma sameLetter_sameUpToCase a b : sameLetter a b = sameUpToCase a b.
Proof.
  assert (Hall : forall c, In c (List.map ascii_of_nat (seq 0 256))).
  { intros c. rewrite <- (ascii_nat_embedding c). apply in_map, in_seq.
    pose proof (nat_ascii_bounded c). lia. }
  assert (H : forallb (fun a => forallb (fun b =>
                 Bool.eqb (sameLetter a b) (sameUpToCase a b))
                 (List.map ascii_of_nat (seq 0 256)))
                (List.map ascii_of_nat (seq 0 256)) = true)
    by (vm_compute; reflexivity).
  rewrite forallb_forall in H. specialize (H a (Hall a)).
  rewrite forallb_forall in H. specialize (H b (Hall b)).
  now apply Bool.eqb_prop in H.
Qed.

Lemma equalsIgnoreCase_equalUpToCase s t :
  equalsIgnoreCase s t = equalUpToCase s t.
Proof.
  revert t. induction s as [|a s IH]; intros [|b t]; cbn; try reflexivity.
  now rewrite sameLetter_sameUpToCase, IH.
Qed.

(** *** Properties of [buildSwapTransaction] *)

(** C1.  On every request for which [buildSwapTransaction] succeeds, when
    the resolved source token address is not a native-asset sentinel the
    result holds exactly two transactions, the approval of that token
    first and the swap second; when it is a sentinel the result holds the
    swap transaction alone.  The swap transaction is made of the reply of
    the transaction-building call. *)
Theorem transactions_approval_then_swap this request log resp log' :
  buildSwapTransaction this request log = (Ret resp, log') ->
  exists src id p tx swap,
    getTokenAddress (fromChain request) (fromToken request) = Ret src
    /\ buildTx (simpleSDK this) p = Ret (Some tx)
    /\ isSwapOf id tx swap
    /\ (nativeSentinel src = false ->
        exists spender amt calldata,
          encodeFunctionData APPROVE_ABI "approve" [spender; amt] = Ret calldata
          /\ transactions resp = [approvalFor id src calldata; swap])
    /\ (nativeSentinel src = true -> transactions resp = [swap]).
Proof.
  intros H. destruct (buildSwapTransaction_Ret _ _ _ _ _ H).
  rewrite native_test in Htransactions.
  exists src, id, (buildArgs request src dest amt (priceRouteOf q)), tx, swap.
  split; [assumption|]. split; [assumption|]. split; [assumption|]. split.
  - intros Hn. rewrite Hn in Htransactions. cbn in Htransactions.
    destruct Htransactions as (cd & Hcd & Htx). now exists spender, amt, cd.
  - intros Hn. now rewrite Hn in Htransactions.
Qed.

(** C2.  [buildSwapTransaction] leaves the approval out exactly when the
    resolved source token address equals, up to the case of its letters,
    the all-e address or the all-zero address: with any other address the
    result has two transactions, with one of these two it has one.
    Equality up to case is [equalUpToCase], which does not go through the
    lower-casing of the code. *)
Theorem native_detection_exact this request log resp log' :
  buildSwapTransaction this request log = (Ret resp, log') ->
  exists src,
    getTokenAddress (fromChain request) (fromToken request) = Ret src
    /\ (List.length (transactions resp) = 1%nat <->
        equalUpToCase src "0xeeeeeeeeeeeeeeeeeeeeeeeeeeeeeeeeeeeeeeee" = true
        \/ equalUpToCase src "0x0000000000000000000000000000000000000000" = true)
    /\ (List.length (transactions resp) = 2%nat <->
        equalUpToCase src "0xeeeeeeeeeeeeeeeeeeeeeeeeeeeeeeeeeeeeeeee" = false
        /\ equalUpToCase src "0x0000000000000000000000000000000000000000" = false).
Proof.
  intros H. destruct (buildSwapTransaction_Ret _ _ _ _ _ H).
  rewrite native_test in Htransactions. unfold nativeSentinel in Htransactions.
  rewrite !equalsIgnoreCase_equalUpToCase in Htransactions.
  fold NATIVE_E NATIVE_ZERO.
  exists src. split; [assumption|].
  destruct (equalUpToCase src NATIVE_E), (equalUpToCase src NATIVE_ZERO);
    cbn in Htransactions;
    try (destruct Htransactions as (cd & _ & Htransactions));
    rewrite Htransactions; cbn; intuition congruence.
Qed.

(** C6 (amended).  On every successful [buildSwapTransaction], the price
    route of the quote that the pricing call returned (the quote's
    [market] property when it has one, the quote itself otherwise) is,
    unchanged, both the [quote] of the response and the [priceRoute] given
    to the transaction-building call. *)
Theorem price_route_passed_through this request log resp log' :
  buildSwapTransaction this request log = (Ret resp, log') ->
  exists qp q bp,
    log' = log ++ [CallGetQuote qp; CallGetSpender; CallBuildTx bp]
    /\ getQuote (simpleSDK this) qp = Ret q
    /\ quote resp = priceRouteOf q
    /\ b_priceRoute bp = priceRouteOf q
    /\ (hasMarket q = Ret false -> priceRouteOf q = q).
Proof.
  intros H. destruct (buildSwapTransaction_Ret _ _ _ _ _ H).
  exists (quoteArgs request src dest amt), q,
    (buildArgs request src dest amt (priceRouteOf q)).
  split; [assumption|]. split; [assumption|]. split; [assumption|].
  split; [reflexivity|].
  intros Hm. unfold hasMarket in Hm. destruct q; try discriminate Hm.
  cbn. injection Hm as ->. reflexivity.
Qed.

(** C8.  Whenever [buildSwapTransaction] builds an approval (the source
    token address is not a native-asset sentinel), the approval is the
    first transaction, it is sent to the resolved source token address
    with value "0", and its calldata is the encoding of
    [approve(spender, amount)], where the spender is the address the
    collaborator returned and the amount is the base-unit amount that the
    quote call and the transaction-building call received. *)
Theorem approval_transaction_fields this request log resp log' src :
  buildSwapTransaction this request log = (Ret resp, log') ->
  getTokenAddress (fromChain request) (fromToken request) = Ret src ->
  nativeSentinel src = false ->
  exists approval swap spender amt calldata qp bp,
    transactions resp = [approval; swap]
    /\ to approval = src
    /\ value approval = "0"
    /\ data approval = Some calldata
    /\ encodeFunctionData APPROVE_ABI "approve" [spender; amt] = Ret calldata
    /\ getSpender (simpleSDK this) = Ret spender
    /\ getTokenAmount (amount request) (fromChain request) (fromToken request) = Ret amt
    /\ log' = log ++ [CallGetQuote qp; CallGetSpender; CallBuildTx bp]
    /\ q_amount qp = amt
    /\ b_srcAmount bp = amt.
Proof.
  intros H Hsrc Hn. destruct (buildSwapTransaction_Ret _ _ _ _ _ H).
  rewrite HgetSrc in Hsrc. injection Hsrc as ->.
  rewrite native_test, Hn in Htransactions. cbn in Htransactions.
  destruct Htransactions as (cd & Hcd & Htx).
  exists (approvalFor id src cd), swap, spender, amt, cd,
    (quoteArgs request src dest amt),
    (buildArgs request src dest amt (priceRouteOf q)).
  repeat split; assumption.
Qed.

(** C10.  The service is constructed with an SDK session configured for
    chain 1, whatever the request; still, on every successful
    [buildSwapTransaction] every transaction of the result carries the
    chain id resolved from the request's [fromChain]. *)
Theorem chainId_of_every_transaction request log resp log' :
  buildSwapTransaction constructor request log = (Ret resp, log') ->
  (exists cfg, simpleSDK constructor = constructSimpleSDK cfg /\ cfg_chainId cfg = 1)
  /\ exists id,
      getChainId (fromChain request) = Ret id
      /\ Forall (fun t => chainId t = id) (transactions resp).
Proof.
  intros H. split.
  - eexists. split; reflexivity.
  - destruct (buildSwapTransaction_Ret _ _ _ _ _ H).
    exists id. split; [assumption|].
    destruct HisSwap as (Hid & _).
    destruct (negb _ && negb _).
    + destruct Htransactions as (cd & _ & ->).
      repeat constructor. assumption.
    + rewrite Htransactions. repeat constructor. assumption.
Qed.

(** *** The validator *)

Lemma pushIf_app failed msg errs :
  pushIf failed msg errs = errs ++ report failed msg.
Proof. destruct failed; cbn; [reflexivity | now rewrite app_nil_r]. Qed.

Lemma validateSwapRequest_errors params :
  errors (validateSwapRequest params) =
    report (amountRejected (amount params))
      "Invalid amount: must be a positive number"
    ++ report (tokenMissing (fromToken params)) "From token is required"
    ++ report (tokenMissing (toToken params)) "To token is required"
    ++ report (addressRejected (fromAddress params)) "Invalid from address format"
    ++ report (chainRejected (fromChain params))
         ("Unsupported chain: " +++ fromChain params)
    ++ report (tokenUnresolved (fromChain params) (fromToken params))
         ("Token " +++ fromToken params +++ " not supported on " +++ fromChain params)
    ++ report (tokenUnresolved (fromChain params) (toToken params))
         ("Token " +++ toToken params +++ " not supported on " +++ fromChain params).
Proof.
  unfold validateSwapRequest. cbn [errors].
  rewrite !pushIf_app. cbn [app].
  fold (chainSupported (fromChain params)).
  fold (amountRejected (amount params)) (tokenMissing (fromToken params))
    (tokenMissing (toToken params)) (addressRejected (fromAddress params))
    (chainRejected (fromChain params)).
  unfold tokenUnresolved.
  destruct (Js.nonEmpty (fromChain params) && Js.nonEmpty (fromToken params)
            && chainSupported (fromChain params));
  destruct (Js.nonEmpty (fromChain params) && Js.nonEmpty (toToken params)
            && chainSupported (fromChain params));
  cbn [andb];
  try destruct (getTokenAddressForChain (fromChain params) (fromToken params));
  try destruct (getTokenAddressForChain (fromChain params) (toToken params));
  cbn [report]; rewrite <- ?app_assoc, ?app_nil_r; reflexivity.
Qed.

Lemma isValid_errors params :
  isValid (validateSwapRequest params) = true <->
  errors (validateSwapRequest params) = [].
Proof.
  unfold validateSwapRequest. cbn [isValid errors].
  match goal with |- (Nat.eqb (List.length ?l) 0 = true) <-> _ => destruct l end;
    cbn; split; intros H; try reflexivity; discriminate H.
Qed.

Lemma report_nil failed msg : report failed msg = [] -> failed = false.
Proof. destruct failed; [discriminate | reflexivity]. Qed.

Lemma chainSupported_getChainId c :
  chainSupported c = true -> exists id, getChainId c = Ret id.
Proof.
  unfold chainSupported, getChainId, getChainIdForNetwork. intros H.
  destruct (getChainIdFromUtils (normalizeChainName c)) as [e|[n|s]];
    [|eexists; reflexivity..].
  destruct (Js.lookup (Js.toUpperCase c) SUPPORTED_CHAINS);
    [eexists; reflexivity | discriminate H].
Qed.

(** A request that passes the validator resolves: its chain has an id and
    both of its tokens have an address. *)
Lemma valid_resolves request :
  isValid (validateSwapRequest request) = true ->
  exists id src dest,
    getChainId (fromChain request) = Ret id
    /\ getTokenAddress (fromChain request) (fromToken request) = Ret src
    /\ getTokenAddress (fromChain request) (toToken request) = Ret dest.
Proof.
  intros H. apply isValid_errors in H. rewrite validateSwapRequest_errors in H.
  repeat match type of H with
  | _ ++ _ = [] => apply app_eq_nil in H; destruct H as [?H H]
  end.
  repeat match goal with
  | H : report _ _ = [] |- _ => apply report_nil in H
  end.
  unfold chainRejected in *. unfold tokenMissing in *. unfold tokenUnresolved in *.
  repeat match goal with
  | H : _ || _ = false |- _ => apply orb_false_elim in H; destruct H as [?H ?H]
  | H : negb _ = false |- _ => apply negb_false_iff in H
  end.
  repeat match goal with
  | H : Js.nonEmpty ?x = true, H' : context [Js.nonEmpty ?x] |- _ =>
      rewrite H in H'
  | H : chainSupported ?x = true, H' : context [chainSupported ?x] |- _ =>
      rewrite H in H'
  end.
  cbn [andb] in *.
  destruct (chainSupported_getChainId (fromChain request)) as [id Hid];
    [assumption|].
  unfold getTokenAddress.
  destruct (getTokenAddressForChain (fromChain request) (fromToken request)) as [|src];
    [discriminate|].
  destruct (getTokenAddressForChain (fromChain request) (toToken request)) as [|dest];
    [discriminate|].
  now exists id, src, dest.
Qed.

(** C3.  For every request and every behaviour of the token directory
    (one that throws included), the validator returns a [{isValid,
    errors}] record.  Its seven checks each add their own message, in
    order and whatever the outcome of the others, and [isValid] holds
    exactly when no message was added.  In particular a request with
    amount "0", an empty [fromToken] and an unsupported chain gets three
    different messages. *)
Theorem validateSwapRequest_accumulates params :
  let r := validateSwapRequest params in
  errors r =
    report (amountRejected (amount params))
      "Invalid amount: must be a positive number"
    ++ report (tokenMissing (fromToken params)) "From token is required"
    ++ report (tokenMissing (toToken params)) "To token is required"
    ++ report (addressRejected (fromAddress params)) "Invalid from address format"
    ++ report (chainRejected (fromChain params))
         ("Unsupported chain: " +++ fromChain params)
    ++ report (tokenUnresolved (fromChain params) (fromToken params))
         ("Token " +++ fromToken params +++ " not supported on " +++ fromChain params)
    ++ report (tokenUnresolved (fromChain params) (toToken params))
         ("Token " +++ toToken params +++ " not supported on " +++ fromChain params)
  /\ (isValid r = true <-> errors r = [])
  /\ (amount params = "0" -> fromToken params = "" ->
      chainSupported (fromChain params) = false ->
      In "Invalid amount: must be a positive number" (errors r)
      /\ In "From token is required" (errors r)
      /\ In ("Unsupported chain: " +++ fromChain params) (errors r)
      /\ NoDup ["Invalid amount: must be a positive number";
                "From token is required";
                "Unsupported chain: " +++ fromChain params]
      /\ isValid r = false).
Proof.
  cbv zeta. split; [apply validateSwapRequest_errors|].
  split; [apply isValid_errors|].
  intros Ha Hf Hc.
  assert (Hin : In "Invalid amount: must be a positive number"
                  (errors (validateSwapRequest params))
                /\ In "From token is required" (errors (validateSwapRequest params))
                /\ In ("Unsupported chain: " +++ fromChain params)
                     (errors (validateSwapRequest params))).
  { rewrite validateSwapRequest_errors. unfold chainRejected.
    rewrite Ha, Hf, Hc, orb_true_r. cbn [amountRejected tokenMissing report].
    change (amountRejected "0") with true. change (tokenMissing "") with true.
    cbn [report app In]. rewrite ?in_app_iff. cbn [report In]. auto 10. }
  destruct Hin as (H1 & H2 & H3). repeat split; try assumption.
  - repeat constructor; cbn [In]; intros H;
      repeat destruct H as [H|H]; try discriminate H; exact H.
  - destruct (isValid (validateSwapRequest params)) eqn:Hv; [|reflexivity].
    apply isValid_errors in Hv. rewrite Hv in H1. destruct H1.
Qed.

(** *** Decimals *)

(** C4.  For every chain name and token symbol for which neither the
    external directory nor the fallback table has a decimals entry,
    [getTokenDecimalsForChain] returns a value: 6 when the upper-cased
    symbol is USDC or USDT, 18 for every other symbol. *)
Theorem getTokenDecimalsForChain_default chainName tokenSymbol :
  directoryDecimals chainName tokenSymbol = None ->
  fallbackDecimals chainName tokenSymbol = None ->
  getTokenDecimalsForChain chainName tokenSymbol =
    if String.eqb (Js.toUpperCase tokenSymbol) "USDC"
       || String.eqb (Js.toUpperCase tokenSymbol) "USDT"
    then 6 else 18.
Proof.
  unfold directoryDecimals, fallbackDecimals, getTokenDecimalsForChain.
  intros Hd Hf. cbv zeta.
  assert (Hdir : match getTokenDecimalsFromUtils (normalizeChainName chainName)
                         (Js.toUpperCase tokenSymbol) with
                 | Ret d => d
                 | Throw _ => None
                 end = None) by exact Hd.
  rewrite Hdir.
  destruct (Js.lookup (normalizeChainName chainName) FALLBACK_TOKEN_DECIMALS)
    as [table|]; [rewrite Hf|];
    cbn [existsb]; rewrite orb_false_r; reflexivity.
Qed.

(** *** Quotes and errors *)

Lemma Surfaced_surfaceError e : Surfaced e (surfaceError e).
Proof.
  unfold surfaceError.
  destruct (isAxiosError e) eqn:Hax; [|apply surfaced_unchanged; now left].
  destruct (response e) as [d|] eqn:Hr; [|apply surfaced_unchanged; now right].
  unfold Js.or.
  destruct (Js.truthy (Js.getOpt d "message")) eqn:Hm.
  - rewrite Hm. now apply surfaced_message.
  - destruct (Js.truthy (Js.getOpt d "error")) eqn:He.
    + now apply surfaced_error.
    + now apply surfaced_default with d.
Qed.

(** C7 (amended).  [getSwapQuote] validates, resolves the tokens and the
    amount, makes the pricing call and nothing else, and returns the
    quote as the collaborator gave it.  It fails with "Failed to get quote
    from VeloraDEX" whenever the collaborator's result is absent (falsy);
    any other result is returned whether or not it has a destination
    amount. *)
Theorem getSwapQuote_quote_only this request log :
  (forall q log',
      getSwapQuote this request log = (Ret q, log') ->
      isValid (validateSwapRequest request) = true
      /\ exists src dest amt,
          getTokenAddress (fromChain request) (fromToken request) = Ret src
          /\ getTokenAddress (fromChain request) (toToken request) = Ret dest
          /\ getTokenAmount (amount request) (fromChain request) (fromToken request)
             = Ret amt
          /\ getQuote (simpleSDK this) (quoteArgs request src dest amt) = Ret q
          /\ Js.truthy q = true
          /\ log' = log ++ [CallGetQuote (quoteArgs request src dest amt)])
  /\ (forall src dest amt,
        isValid (validateSwapRequest request) = true ->
        getTokenAddress (fromChain request) (fromToken request) = Ret src ->
        getTokenAddress (fromChain request) (toToken request) = Ret dest ->
        getTokenAmount (amount request) (fromChain request) (fromToken request)
          = Ret amt ->
        getSwapQuote this request log =
          (match getQuote (simpleSDK this) (quoteArgs request src dest amt) with
           | Ret q =>
               if Js.truthy q then Ret q
               else Throw (Error "Failed to get quote from VeloraDEX")
           | Throw e => Throw (surfaceError e)
           end,
           log ++ [CallGetQuote (quoteArgs request src dest amt)])).
Proof.
  split.
  - intros q log' H. unfold getSwapQuote in H. apply tryCatch_Ret in H.
    unfold getSwapQuote_try in H. unfold_steps H.
    destruct (isValid (validateSwapRequest request)) eqn:Hvalid; [|discriminate H].
    cbn [negb] in H. split; [reflexivity|].
    destruct (getChainId (fromChain request)) as [|id]; [discriminate H|].
    destruct (getTokenAmount (amount request) (fromChain request) (fromToken request))
      as [|amt]; [discriminate H|].
    destruct (getTokenAddress (fromChain request) (fromToken request))
      as [|src]; [discriminate H|].
    destruct (getTokenAddress (fromChain request) (toToken request))
      as [|dest]; [discriminate H|].
    fold (quoteArgs request src dest amt) in H.
    destruct (getQuote (simpleSDK this) (quoteArgs request src dest amt))
      as [|q0] eqn:Hq; [discriminate H|].
    destruct (Js.truthy q0) eqn:Ht; [|discriminate H].
    cbn [negb] in H. injection H as <- <-.
    exists src, dest, amt. repeat split; assumption.
  - intros src dest amt Hvalid Hsrc Hdest Hamt.
    destruct (valid_resolves request Hvalid) as (id & _ & _ & Hid & _).
    unfold getSwapQuote, getSwapQuote_try.
    cbv beta delta [bind lift ret throw tryCatch callGetQuote].
    rewrite Hvalid, Hid, Hamt, Hsrc, Hdest. cbn [negb].
    fold (quoteArgs request src dest amt).
    destruct (getQuote (simpleSDK this) (quoteArgs request src dest amt)) as [e|q];
      [reflexivity|].
    destruct (Js.truthy q); reflexivity.
Qed.

(** C9 (amended).  In [buildSwapTransaction] and in [getSwapQuote], an
    error raised in the [try] block that is an error of the HTTP client
    carrying a reply is replaced by a plain error whose message is the
    reply's [message] field when that is present, else its [error] field
    when that is present, else the fixed text "VeloraDEX API request
    failed"; every other error is thrown again unchanged.  A run that
    raises nothing returns what the block returned. *)
Theorem api_error_surfaced this request log :
  (forall e log',
      buildSwapTransaction_try this request log = (Throw e, log') ->
      exists e',
        buildSwapTransaction this request log = (Throw e', log') /\ Surfaced e e')
  /\ (forall e log',
        getSwapQuote_try this request log = (Throw e, log') ->
        exists e',
          getSwapQuote this request log = (Throw e', log') /\ Surfaced e e')
  /\ (forall r log',
        buildSwapTransaction_try this request log = (Ret r, log') ->
        buildSwapTransaction this request log = (Ret r, log'))
  /\ (forall r log',
        getSwapQuote_try this request log = (Ret r, log') ->
        getSwapQuote this request log = (Ret r, log')).
Proof.
  repeat split.
  - intros e log' H. exists (surfaceError e). split.
    + now apply tryCatch_Throw.
    + apply Surfaced_surfaceError.
  - intros e log' H. exists (surfaceError e). split.
    + now apply tryCatch_Throw.
    + apply Surfaced_surfaceError.
  - intros r log' H. now apply tryCatch_Ret.
  - intros r log' H. now apply tryCatch_Ret.
Qed.

(** *** Resolution *)

Lemma toUpperChar_toLowerChar c :
  Js.toUpperChar (Js.toLowerChar c) = Js.toUpperChar c.
Proof. destruct c as [[] [] [] [] [] [] [] []]; vm_compute; reflexivity. Qed.

Lemma toLowerChar_toUpperChar c :
  Js.toLowerChar (Js.toUpperChar c) = Js.toLowerChar c.
Proof. destruct c as [[] [] [] [] [] [] [] []]; vm_compute; reflexivity. Qed.

Lemma toLowerChar_idem c : Js.toLowerChar (Js.toLowerChar c) = Js.toLowerChar c.
Proof. destruct c as [[] [] [] [] [] [] [] []]; vm_compute; reflexivity. Qed.

Lemma toUpperCase_toLowerCase s :
  Js.toUpperCase (Js.toLowerCase s) = Js.toUpperCase s.
Proof.
  unfold Js.toUpperCase, Js.toLowerCase.
  induction s as [|c s IH]; cbn; [reflexivity|].
  now rewrite toUpperChar_toLowerChar, IH.
Qed.

Lemma toLowerCase_idem s : Js.toLowerCase (Js.toLowerCase s) = Js.toLowerCase s.
Proof.
  unfold Js.toLowerCase. induction s as [|c s IH]; cbn; [reflexivity|].
  now rewrite toLowerChar_idem, IH.
Qed.

Lemma equalsIgnoreCase_toLowerCase s t :
  equalsIgnoreCase s t = true <-> Js.toLowerCase s = Js.toLowerCase t.
Proof.
  unfold Js.toLowerCase. revert t.
  induction s as [|a s IH]; intros [|b t]; cbn; split; intros H;
    try reflexivity; try discriminate H.
  - apply andb_true_iff in H as [Hab Hst]. unfold sameLetter in Hab.
    apply Ascii.eqb_eq in Hab. apply IH in Hst. now rewrite Hab, Hst.
  - injection H as Hab Hst. apply andb_true_iff. split.
    + unfold sameLetter. now apply Ascii.eqb_eq.
    + now apply IH.
Qed.

Lemma equalsIgnoreCase_toUpperCase s t :
  equalsIgnoreCase s t = true -> Js.toUpperCase s = Js.toUpperCase t.
Proof.
  intros H. apply equalsIgnoreCase_toLowerCase in H.
  now rewrite <- (toUpperCase_toLowerCase s), H, toUpperCase_toLowerCase.
Qed.

Lemma normalizeChainName_ignoreCase c1 c2 :
  equalsIgnoreCase c1 c2 = true -> normalizeChainName c1 = normalizeChainName c2.
Proof.
  intros H. unfold normalizeChainName.
  rewrite (equalsIgnoreCase_toUpperCase _ _ H).
  apply equalsIgnoreCase_toLowerCase in H. now rewrite H.
Qed.

(** X1.  Resolution does not look at the case of letters: for two chain
    names and two token symbols that differ only in case, the chain is
    supported for both or for neither, the chain id is the same, the
    token address is the same and the decimals are the same.  (A failure
    carries the name in the spelling it was given.) *)
Theorem resolution_ignores_case c1 c2 t1 t2 :
  equalsIgnoreCase c1 c2 = true ->
  equalsIgnoreCase t1 t2 = true ->
  chainSupported c1 = chainSupported c2
  /\ (forall id, getChainIdForNetwork c1 = Ret id <-> getChainIdForNetwork c2 = Ret id)
  /\ (forall a, getTokenAddressForChain c1 t1 = Ret a
                <-> getTokenAddressForChain c2 t2 = Ret a)
  /\ getTokenDecimalsForChain c1 t1 = getTokenDecimalsForChain c2 t2.
Proof.
  intros Hc Ht.
  pose proof (normalizeChainName_ignoreCase _ _ Hc) as Hn.
  pose proof (equalsIgnoreCase_toUpperCase _ _ Hc) as Hcu.
  pose proof (equalsIgnoreCase_toUpperCase _ _ Ht) as Htu.
  split; [unfold chainSupported; now rewrite Hcu|]. split; [|split].
  - intros id. unfold getChainIdForNetwork. rewrite Hn, Hcu.
    destruct (getChainIdFromUtils (normalizeChainName c2)) as [e|[n|s]];
      try reflexivity.
    destruct (Js.lookup (Js.toUpperCase c2) SUPPORTED_CHAINS);
      [reflexivity | split; discriminate].
  - intros a. unfold getTokenAddressForChain. rewrite Hn, Htu. cbv zeta.
    match goal with
    | |- (match ?x with _ => _ end = _) <-> _ => destruct x as [b|]
    end; [destruct (Js.nonEmpty b)|]; try reflexivity; split; discriminate.
  - unfold getTokenDecimalsForChain. now rewrite Hn, Htu.
Qed.

(** X13.  The name a chain is looked up under is stable: normalising a
    normalised name changes nothing, whether the name came from the
    mapping table or from lower-casing. *)
Theorem normalizeChainName_idem c :
  normalizeChainName (normalizeChainName c) = normalizeChainName c.
Proof.
  unfold normalizeChainName at 2 3.
  destruct (Js.lookup (Js.toUpperCase c) CHAIN_NAME_MAPPING) as [n|] eqn:E.
  - cbn in E.
    repeat match type of E with
    | (if ?b then _ else _) = _ => destruct b; [injection E as <-; reflexivity|]
    end.
    discriminate E.
  - unfold normalizeChainName.
    now rewrite toUpperCase_toLowerCase, E, toLowerCase_idem.
Qed.

Lemma fallback_address_has_decimals n u a :
  match Js.lookup n FALLBACK_TOKEN_ADDRESSES with
  | Some table => Js.lookup u table
  | None => None
  end = Some a ->
  Js.nonEmpty a = true
  /\ exists d,
      match Js.lookup n FALLBACK_TOKEN_DECIMALS with
      | Some table => Js.lookup u table
      | None => None
      end = Some d
      /\ (d = 6 \/ d = 18).
Proof.
  cbn [Js.lookup FALLBACK_TOKEN_ADDRESSES FALLBACK_TOKEN_DECIMALS].
  intros H.
  repeat match type of H with
  | context [String.eqb ?x ?y] =>
      destruct (String.eqb x y); cbn [Js.lookup] in H |- *
  end;
  try discriminate H; injection H as <-;
    (split; [reflexivity | eexists; split; [reflexivity | auto]]).
Qed.

Lemma address_resolved chainName tokenSymbol a :
  getTokenAddressForChain chainName tokenSymbol = Ret a ->
  Js.nonEmpty a = true
  /\ (directoryAddress chainName tokenSymbol = Some a
      \/ (optTruthy (directoryAddress chainName tokenSymbol) = false
          /\ fallbackAddress chainName tokenSymbol = Some a)).
Proof.
  unfold getTokenAddressForChain, directoryAddress, fallbackAddress. cbv zeta.
  set (dir := match getTokenAddressFromUtils (normalizeChainName chainName)
                      (Js.toUpperCase tokenSymbol) with
              | Ret a0 => a0
              | Throw _ => None
              end).
  destruct (optTruthy dir) eqn:Hd; cbn [negb].
  - destruct dir as [a0|]; [|discriminate Hd].
    destruct (Js.nonEmpty a0) eqn:Hne; intros H; [|discriminate H].
    injection H as <-. auto.
  - destruct (Js.lookup (normalizeChainName chainName) FALLBACK_TOKEN_ADDRESSES)
      as [table|].
    + destruct (Js.lookup (Js.toUpperCase tokenSymbol) table) as [a0|];
        [|discriminate].
      destruct (Js.nonEmpty a0) eqn:Hne; intros H; [|discriminate H].
      injection H as <-. auto.
    + destruct dir as [a0|]; [|discriminate]. cbn in Hd. rewrite Hd. discriminate.
Qed.

(** X2.  [getTokenAddressForChain] returns the directory's address when
    the directory has a non-empty one, else the address of the fallback
    table, and fails with "Token ... not found on chain ..." exactly when
    neither has one.  It never returns the empty string. *)
Theorem getTokenAddressForChain_tiers chainName tokenSymbol :
  (forall a,
      getTokenAddressForChain chainName tokenSymbol = Ret a <->
      (directoryAddress chainName tokenSymbol = Some a /\ Js.nonEmpty a = true)
      \/ (optTruthy (directoryAddress chainName tokenSymbol) = false
          /\ fallbackAddress chainName tokenSymbol = Some a))
  /\ (forall a, getTokenAddressForChain chainName tokenSymbol = Ret a ->
                Js.nonEmpty a = true)
  /\ (optTruthy (directoryAddress chainName tokenSymbol) = false ->
      fallbackAddress chainName tokenSymbol = None ->
      getTokenAddressForChain chainName tokenSymbol =
        Throw (Error ("Token " +++ tokenSymbol +++ " not found on chain "
                      +++ chainName))).
Proof.
  assert (Hfb : forall a, fallbackAddress chainName tokenSymbol = Some a ->
                          Js.nonEmpty a = true).
  { intros a H. now apply fallback_address_has_decimals in H. }
  unfold getTokenAddressForChain, directoryAddress, fallbackAddress in *.
  cbv zeta.
  set (dir := match getTokenAddressFromUtils (normalizeChainName chainName)
                      (Js.toUpperCase tokenSymbol) with
              | Ret a => a
              | Throw _ => None
              end) in *.
  set (fb := match Js.lookup (normalizeChainName chainName)
                     FALLBACK_TOKEN_ADDRESSES with
             | Some table => Js.lookup (Js.toUpperCase tokenSymbol) table
             | None => None
             end) in *.
  assert (Hres :
            (if negb (optTruthy dir)
             then match Js.lookup (normalizeChainName chainName)
                          FALLBACK_TOKEN_ADDRESSES with
                  | Some table => Js.lookup (Js.toUpperCase tokenSymbol) table
                  | None => dir
                  end
             else dir)
            = if optTruthy dir then dir
              else match fb with Some a => Some a | None =>
                     match Js.lookup (normalizeChainName chainName)
                             FALLBACK_TOKEN_ADDRESSES with
                     | Some _ => None
                     | None => dir
                     end
                   end).
  { unfold fb. destruct (optTruthy dir); cbn [negb]; [reflexivity|].
    destruct (Js.lookup (normalizeChainName chainName) FALLBACK_TOKEN_ADDRESSES);
      [|reflexivity].
    destruct (Js.lookup (Js.toUpperCase tokenSymbol) l); reflexivity. }
  rewrite Hres. clear Hres.
  destruct (optTruthy dir) eqn:Hdir.
  - destruct dir as [a0|]; [|discriminate Hdir]. cbn in Hdir. rewrite Hdir.
    split; [|split].
    + intros a. split.
      * intros H. injection H as <-. left. auto.
      * intros [[H _]|[H _]]; [now injection H as <- | discriminate H].
    + intros a H. now injection H as <-.
    + discriminate.
  - destruct fb as [a0|] eqn:Hfb0.
    + rewrite (Hfb a0 eq_refl). split; [|split].
      * intros a. split.
        -- intros H. injection H as <-. right. auto.
        -- intros [[H Hne]|[_ H]]; [|now injection H as <-].
           rewrite H in Hdir. cbn in Hdir. congruence.
      * intros a H. injection H as <-. now apply Hfb.
      * discriminate.
    + assert (Hthrow :
                match
                  match Js.lookup (normalizeChainName chainName)
                          FALLBACK_TOKEN_ADDRESSES with
                  | Some _ => None
                  | None => dir
                  end
                with
                | Some a =>
                    if Js.nonEmpty a then Ret a
                    else Throw (Error ("Token " +++ tokenSymbol
                                       +++ " not found on chain " +++ chainName))
                | None => Throw (Error ("Token " +++ tokenSymbol
                                        +++ " not found on chain " +++ chainName))
                end
                = Throw (Error ("Token " +++ tokenSymbol
                                +++ " not found on chain " +++ chainName))).
      { destruct (Js.lookup (normalizeChainName chainName) FALLBACK_TOKEN_ADDRESSES);
          [reflexivity|].
        destruct dir as [a0|]; [|reflexivity]. cbn in Hdir. now rewrite Hdir. }
      rewrite Hthrow. split; [|split].
      * intros a. split; [discriminate|].
        intros [[H Hne]|[_ H]]; [|discriminate H].
        rewrite H in Hdir. cbn in Hdir. congruence.
      * discriminate.
      * reflexivity.
Qed.

(** X3.  A token that resolves through the fallback table alone (the
    directory has neither its address nor its decimals) gets the decimals
    the fallback table lists for it, never the default guess. *)
Theorem fallback_token_decimals_listed chainName tokenSymbol a :
  optTruthy (directoryAddress chainName tokenSymbol) = false ->
  directoryDecimals chainName tokenSymbol = None ->
  getTokenAddressForChain chainName tokenSymbol = Ret a ->
  fallbackAddress chainName tokenSymbol = Some a
  /\ fallbackDecimals chainName tokenSymbol
     = Some (getTokenDecimalsForChain chainName tokenSymbol)
  /\ (getTokenDecimalsForChain chainName tokenSymbol = 6
      \/ getTokenDecimalsForChain chainName tokenSymbol = 18).
Proof.
  intros Hdir Hdec Ha.
  apply address_resolved in Ha.
  destruct Ha as [Hne [Ha|[_ Ha]]].
  { rewrite Ha in Hdir. cbn in Hdir. congruence. }
  split; [assumption|].
  unfold fallbackAddress in Ha.
  destruct (fallback_address_has_decimals _ _ _ Ha) as (_ & d & Hd & Hd618).
  unfold directoryDecimals in Hdec. unfold fallbackDecimals, getTokenDecimalsForChain.
  cbv zeta.
  assert (Hdir' : match getTokenDecimalsFromUtils (normalizeChainName chainName)
                          (Js.toUpperCase tokenSymbol) with
                  | Ret d0 => d0
                  | Throw _ => None
                  end = None) by exact Hdec.
  rewrite Hdir'.
  destruct (Js.lookup (normalizeChainName chainName) FALLBACK_TOKEN_DECIMALS)
    as [table|]; [|discriminate Hd].
  rewrite Hd. auto.
Qed.

(** *** Runs of the service *)

(** Everything a successful run went through, with the reply of
    [buildTx] and the transaction made of it. *)
Lemma buildSwapTransaction_details this request log resp log' :
  buildSwapTransaction this request log = (Ret resp, log') ->
  exists id src dest amt q spender tx gp gl pre,
    isValid (validateSwapRequest request) = true
    /\ getChainId (fromChain request) = Ret id
    /\ getTokenAddress (fromChain request) (fromToken request) = Ret src
    /\ getTokenAddress (fromChain request) (toToken request) = Ret dest
    /\ getTokenAmount (amount request) (fromChain request) (fromToken request) = Ret amt
    /\ getQuote (simpleSDK this) (quoteArgs request src dest amt) = Ret q
    /\ Js.truthy q = true
    /\ Js.truthy (Js.get (priceRouteOf q) "destAmount") = true
    /\ getSpender (simpleSDK this) = Ret spender
    /\ buildTx (simpleSDK this) (buildArgs request src dest amt (priceRouteOf q))
       = Ret (Some tx)
    /\ optTruthy (tx_to tx) = true
    /\ optTruthy (tx_data tx) = true
    /\ optBigIntString (tx_gasPrice tx) = Ret gp
    /\ optBigIntString (tx_gas tx) = Ret gl
    /\ transactions resp = pre ++ [swapFor id tx gp gl]
    /\ (pre = []
        \/ exists calldata,
            encodeFunctionData APPROVE_ABI "approve" [spender; amt] = Ret calldata
            /\ pre = [approvalFor id src calldata]).
Proof.
  unfold buildSwapTransaction. intros H. apply tryCatch_Ret in H.
  unfold buildSwapTransaction_try in H. unfold_steps H.
  destruct (isValid (validateSwapRequest request)) eqn:Hvalid; [|discriminate H].
  cbn [negb] in H.
  destruct (getChainId (fromChain request)) as [|id] eqn:Hid; [discriminate H|].
  destruct (getTokenAddress (fromChain request) (fromToken request))
    as [|src] eqn:Hsrc; [discriminate H|].
  destruct (getTokenAddress (fromChain request) (toToken request))
    as [|dest] eqn:Hdest; [discriminate H|].
  destruct (getTokenAmount (amount request) (fromChain request) (fromToken request))
    as [|amt] eqn:Hamt; [discriminate H|].
  fold (quoteArgs request src dest amt) in H.
  destruct (getQuote (simpleSDK this) (quoteArgs request src dest amt))
    as [|q] eqn:Hq; [discriminate H|].
  destruct (Js.truthy q) eqn:Htq; [|discriminate H].
  cbn [negb] in H.
  destruct (hasMarket q) as [|inq] eqn:Hin; [discriminate H|].
  assert (Hpr : (if inq then Js.get q "market" else q) = priceRouteOf q).
  { unfold hasMarket in Hin. destruct q; try discriminate Hin.
    injection Hin as <-. reflexivity. }
  rewrite Hpr in H.
  destruct (Js.truthy (priceRouteOf q)); [|discriminate H].
  destruct (Js.truthy (Js.get (priceRouteOf q) "destAmount")) eqn:Hdest';
    [|discriminate H].
  cbn [negb orb] in H.
  destruct (getSpender (simpleSDK this)) as [|sp] eqn:Hsp; [discriminate H|].
  fold (buildArgs request src dest amt (priceRouteOf q)) in H.
  assert (Hswap : forall tx gp gl a,
             tx_to tx = Some a ->
             {| chainId := id; to := a;
                value := if optTruthy (tx_value tx)
                         then match tx_value tx with Some v => v | None => "0" end
                         else "0";
                data := tx_data tx; gasPrice := gp; gasLimit := gl |}
             = swapFor id tx gp gl).
  { intros tx gp gl a Ha. unfold swapFor. rewrite Ha.
    destruct (tx_value tx) as [v|]; reflexivity. }
  destruct (negb (String.eqb (Js.toLowerCase src)
                    "0xeeeeeeeeeeeeeeeeeeeeeeeeeeeeeeeeeeeeeeee")
            && negb (String.eqb (Js.toLowerCase src)
                       "0x0000000000000000000000000000000000000000")).
  - destruct (encodeFunctionData APPROVE_ABI "approve" [sp; amt])
      as [|cd] eqn:Hcd; [discriminate H|].
    destruct (buildTx (simpleSDK this) (buildArgs request src dest amt (priceRouteOf q)))
      as [|[tx|]] eqn:Htx; try discriminate H.
    destruct (optTruthy (tx_to tx)) eqn:Hto; [|discriminate H].
    destruct (optTruthy (tx_data tx)) eqn:Hdata; [|discriminate H].
    cbn [negb orb] in H.
    destruct (optBigIntString (tx_gasPrice tx)) as [|gp] eqn:Hgp; [discriminate H|].
    destruct (optBigIntString (tx_gas tx)) as [|gl] eqn:Hgl; [discriminate H|].
    destruct (tx_to tx) as [a|] eqn:Ha; [|discriminate Hto].
    rewrite (Hswap tx gp gl a Ha) in H. injection H as <- <-.
    exists id, src, dest, amt, q, sp, tx, gp, gl, [approvalFor id src cd].
    rewrite Ha. cbn [transactions].
    repeat (split; [first [assumption | reflexivity]|]).
    right. now exists cd.
  - destruct (buildTx (simpleSDK this) (buildArgs request src dest amt (priceRouteOf q)))
      as [|[tx|]] eqn:Htx; try discriminate H.
    destruct (optTruthy (tx_to tx)) eqn:Hto; [|discriminate H].
    destruct (optTruthy (tx_data tx)) eqn:Hdata; [|discriminate H].
    cbn [negb orb] in H.
    destruct (optBigIntString (tx_gasPrice tx)) as [|gp] eqn:Hgp; [discriminate H|].
    destruct (optBigIntString (tx_gas tx)) as [|gl] eqn:Hgl; [discriminate H|].
    destruct (tx_to tx) as [a|] eqn:Ha; [|discriminate Hto].
    rewrite (Hswap tx gp gl a Ha) in H. injection H as <- <-.
    exists id, src, dest, amt, q, sp, tx, gp, gl, [].
    rewrite Ha. cbn [transactions].
    repeat (split; [first [assumption | reflexivity]|]).
    now left.
Qed.

Lemma surfaceError_Error msg : surfaceError (Error msg) = Error msg.
Proof. reflexivity. Qed.

(** X4.  A request that the validator rejects stops both methods before
    any remote call: they throw "Invalid request: " followed by all the
    validator's messages, joined by ", ", and the log of calls is
    unchanged. *)
Theorem invalid_request_makes_no_call this request log :
  isValid (validateSwapRequest request) = false ->
  let rejection :=
    Error ("Invalid request: " +++ Js.join ", " (errors (validateSwapRequest request))) in
  buildSwapTransaction this request log = (Throw rejection, log)
  /\ getSwapQuote this request log = (Throw rejection, log)
  /\ errors (validateSwapRequest request) <> [].
Proof.
  intros H. cbv zeta. split; [|split].
  - unfold buildSwapTransaction, buildSwapTransaction_try, tryCatch, throw.
    rewrite H. reflexivity.
  - unfold getSwapQuote, getSwapQuote_try, tryCatch, throw.
    rewrite H. reflexivity.
  - intros He. apply isValid_errors in He. congruence.
Qed.

(** X5.  Whatever the outcome of [buildSwapTransaction], the remote calls
    it made are the first ones of: the quote call, the spender call, the
    transaction-building call, each at most once and in this order, with
    the resolved addresses and amount.  It made none only when the
    validator rejected the request or the amount did not convert, it
    made one only for a request that passed the validator, and it
    returned only after all three. *)
Theorem remote_calls_in_order this request log r log' :
  buildSwapTransaction this request log = (r, log') ->
  exists calls,
    log' = log ++ calls
    /\ callsInOrder this request calls
    /\ (calls = [] ->
        isValid (validateSwapRequest request) = false
        \/ exists e,
            getTokenAmount (amount request) (fromChain request) (fromToken request)
            = Throw e)
    /\ (calls <> [] -> isValid (validateSwapRequest request) = true)
    /\ (forall resp, r = Ret resp -> List.length calls = 3%nat).
Proof.
  unfold buildSwapTransaction, tryCatch.
  destruct (buildSwapTransaction_try this request log) as [r0 l0] eqn:H.
  intros Hout.
  assert (Hl : l0 = log') by (destruct r0; now injection Hout).
  assert (Hr : forall resp, r = Ret resp -> r0 = Ret resp).
  { intros resp ->. destruct r0; [discriminate Hout | now injection Hout as -> _]. }
  subst l0. clear Hout.
  enough (Hgoal : exists calls,
             log' = log ++ calls
             /\ callsInOrder this request calls
             /\ (calls = [] ->
                 isValid (validateSwapRequest request) = false
                 \/ exists e,
                     getTokenAmount (amount request) (fromChain request)
                       (fromToken request) = Throw e)
             /\ (calls <> [] -> isValid (validateSwapRequest request) = true)
             /\ (forall resp, r0 = Ret resp -> List.length calls = 3%nat)).
  { destruct Hgoal as (calls & H1 & H2 & H3 & H5 & H4). exists calls.
    split; [assumption|]. split; [assumption|]. split; [assumption|].
    split; [assumption|].
    intros resp Hresp. apply (H4 resp). now apply Hr. }
  clear Hr r.
  unfold buildSwapTransaction_try in H. unfold_steps H.
  destruct (isValid (validateSwapRequest request)) eqn:Hvalid; cbn [negb] in H.
  - destruct (valid_resolves request Hvalid) as (id & src & dest & Hid & Hsrc & Hdest).
    rewrite Hid, Hsrc, Hdest in H.
    destruct (getTokenAmount (amount request) (fromChain request) (fromToken request))
      as [e|amt] eqn:Hamt.
    { injection H as <- <-. exists []. rewrite app_nil_r.
      split; [reflexivity|]. split; [now left|].
      split; [|split; [reflexivity | discriminate]].
      intros _. right. now exists e. }
    match goal with
    | |- ?G =>
        assert (Hfin : forall calls,
                   log' = log ++ calls -> callsInOrder this request calls ->
                   calls <> [] ->
                   (forall resp, r0 = Ret resp -> List.length calls = 3%nat) -> G)
    end.
    { intros calls E C N L. exists calls. repeat split; auto.
      intros ->. contradiction. }
    fold (quoteArgs request src dest amt) in H.
    set (Q := CallGetQuote (quoteArgs request src dest amt)) in *.
    assert (C1 : callsInOrder this request [Q]).
    { right. exists src, dest, amt. auto. }
    assert (C2 : callsInOrder this request [Q; CallGetSpender]).
    { right. exists src, dest, amt. auto 6. }
    assert (E2 : (log ++ [Q]) ++ [CallGetSpender] = log ++ [Q; CallGetSpender])
      by now rewrite <- app_assoc.
    destruct (getQuote (simpleSDK this) (quoteArgs request src dest amt))
      as [e|q] eqn:Hq.
    { injection H as <- <-. apply (Hfin [Q]); auto; discriminate. }
    destruct (Js.truthy q); cbn [negb] in H.
    2:{ injection H as <- <-. apply (Hfin [Q]); auto; discriminate. }
    destruct (hasMarket q) as [e|inq] eqn:Hin.
    { injection H as <- <-. apply (Hfin [Q]); auto; discriminate. }
    assert (Hpr : (if inq then Js.get q "market" else q) = priceRouteOf q).
    { unfold hasMarket in Hin. destruct q; try discriminate Hin.
      injection Hin as <-. reflexivity. }
    rewrite Hpr in H.
    destruct (negb (Js.truthy (priceRouteOf q))
              || negb (Js.truthy (Js.get (priceRouteOf q) "destAmount"))).
    { injection H as <- <-. apply (Hfin [Q]); auto; discriminate. }
    fold (buildArgs request src dest amt (priceRouteOf q)) in H.
    set (B := CallBuildTx (buildArgs request src dest amt (priceRouteOf q))) in *.
    assert (C3 : callsInOrder this request [Q; CallGetSpender; B]).
    { right. exists src, dest, amt. split; [assumption|]. split; [assumption|].
      split; [assumption|]. right. right. now exists q. }
    assert (E3 : ((log ++ [Q]) ++ [CallGetSpender]) ++ [B]
                 = log ++ [Q; CallGetSpender; B])
      by now rewrite <- !app_assoc.
    assert (Hend : forall (r1 : result SwapResponse),
               (r1, ((log ++ [Q]) ++ [CallGetSpender]) ++ [B]) = (r0, log') ->
               exists calls,
                 log' = log ++ calls
                 /\ callsInOrder this request calls
                 /\ (calls = [] ->
                     isValid (validateSwapRequest request) = false
                     \/ exists e,
                         getTokenAmount (amount request) (fromChain request)
                           (fromToken request) = Throw e)
                 /\ (calls <> [] -> isValid (validateSwapRequest request) = true)
                 /\ (forall resp, r0 = Ret resp -> List.length calls = 3%nat)).
    { intros r1 E. injection E as <- <-. rewrite Hvalid, Hamt.
      apply (Hfin [Q; CallGetSpender; B]); auto; discriminate. }
    rewrite Hvalid, Hamt in Hend.
    destruct (getSpender (simpleSDK this)) as [e|sp].
    { injection H as <- <-. apply (Hfin [Q; CallGetSpender]); auto; discriminate. }
    destruct (negb (String.eqb (Js.toLowerCase src)
                      "0xeeeeeeeeeeeeeeeeeeeeeeeeeeeeeeeeeeeeeeee")
              && negb (String.eqb (Js.toLowerCase src)
                         "0x0000000000000000000000000000000000000000")).
    + destruct (encodeFunctionData APPROVE_ABI "approve" [sp; amt]) as [e|cd].
      { injection H as <- <-. apply (Hfin [Q; CallGetSpender]); auto; discriminate. }
      destruct (buildTx (simpleSDK this)
                  (buildArgs request src dest amt (priceRouteOf q)))
        as [e|[tx|]]; try (eapply Hend; exact H).
      destruct (negb (optTruthy (tx_to tx)) || negb (optTruthy (tx_data tx)));
        try (eapply Hend; exact H).
      destruct (optBigIntString (tx_gasPrice tx)); try (eapply Hend; exact H).
      destruct (optBigIntString (tx_gas tx)); eapply Hend; exact H.
    + destruct (buildTx (simpleSDK this)
                  (buildArgs request src dest amt (priceRouteOf q)))
        as [e|[tx|]]; try (eapply Hend; exact H).
      destruct (negb (optTruthy (tx_to tx)) || negb (optTruthy (tx_data tx)));
        try (eapply Hend; exact H).
      destruct (optBigIntString (tx_gasPrice tx)); try (eapply Hend; exact H).
      destruct (optBigIntString (tx_gas tx)); eapply Hend; exact H.
  - injection H as <- <-. exists []. rewrite app_nil_r.
    split; [reflexivity|]. split; [now left|]. split; [now left|].
    split; [intros N; now contradiction N | discriminate].
Qed.

Lemma surfaceError_plain e : plainError (surfaceError e).
Proof.
  unfold surfaceError, plainError.
  destruct (isAxiosError e) eqn:Hax; [|now left].
  destruct (response e) eqn:Hr; [now left | now right].
Qed.

(** X6.  No error that [buildSwapTransaction] or [getSwapQuote] throws is
    an error of the HTTP client with a reply attached: such an error is
    always replaced.  The replacement is stable: passing an error through
    the [catch] clause twice gives what passing it once gives. *)
Theorem thrown_errors_are_plain this request log e log' :
  (buildSwapTransaction this request log = (Throw e, log') -> plainError e)
  /\ (getSwapQuote this request log = (Throw e, log') -> plainError e)
  /\ surfaceError (surfaceError e) = surfaceError e.
Proof.
  split; [|split].
  - unfold buildSwapTransaction, tryCatch.
    destruct (buildSwapTransaction_try this request log) as [[e0|r] l];
      intros H; [|discriminate H].
    injection H as <- _. apply surfaceError_plain.
  - unfold getSwapQuote, tryCatch.
    destruct (getSwapQuote_try this request log) as [[e0|r] l];
      intros H; [|discriminate H].
    injection H as <- _. apply surfaceError_plain.
  - destruct (surfaceError_plain e) as [H|H]; unfold surfaceError at 1; rewrite H;
      [reflexivity|]. now destruct (isAxiosError (surfaceError e)).
Qed.

(** X7.  Whenever [buildSwapTransaction] succeeds on a request,
    [getSwapQuote] succeeds on it too, with the same collaborators: it
    makes the call that the build made first and returns the quote whose
    price route is the [quote] of the build's response. *)
Theorem quote_of_successful_build this request log resp log' :
  buildSwapTransaction this request log = (Ret resp, log') ->
  exists q call,
    getSwapQuote this request log = (Ret q, log ++ [call])
    /\ priceRouteOf q = quote resp
    /\ firstn 1 (skipn (List.length log) log') = [call].
Proof.
  intros H.
  destruct (buildSwapTransaction_Ret _ _ _ _ _ H).
  destruct (buildSwapTransaction_details _ _ _ _ _ H)
    as (id' & src' & dest' & amt' & q' & _ & _ & _ & _ & _
        & _ & _ & Hsrc' & Hdest' & Hamt' & Hq' & Htq & _).
  rewrite HgetSrc in Hsrc'. injection Hsrc' as <-.
  rewrite HgetDest in Hdest'. injection Hdest' as <-.
  rewrite HgetAmount in Hamt'. injection Hamt' as <-.
  rewrite HgetQuote in Hq'. injection Hq' as <-.
  exists q, (CallGetQuote (quoteArgs request src dest amt)).
  split; [|split].
  - unfold getSwapQuote, getSwapQuote_try.
    cbv beta delta [bind lift ret throw tryCatch callGetQuote].
    rewrite Hvalid, HgetChainId, HgetAmount, HgetSrc, HgetDest. cbn [negb].
    fold (quoteArgs request src dest amt). now rewrite HgetQuote, Htq.
  - now symmetry.
  - rewrite Hlog, skipn_app, skipn_all, Nat.sub_diag. reflexivity.
Qed.

Lemma optBigIntString_normalised field out :
  optBigIntString field = Ret out -> gasNormalised field out.
Proof.
  unfold optBigIntString, gasNormalised, bigIntString.
  destruct field as [g|]; cbn [optTruthy].
  - destruct (Js.nonEmpty g); [|intros H; now injection H as <-].
    destruct (Js.stringToBigInt g) as [z|]; [|discriminate].
    intros H. injection H as <-. now exists z.
  - intros H. now injection H as <-.
Qed.

(** X8.  In a successful [buildSwapTransaction] the swap transaction is
    the last one; it takes its destination and calldata from the reply of
    [buildTx], its value from the reply or "0" when the reply has none,
    and each gas field as the decimal digits of the integer the reply's
    field denotes, or nothing when the reply has no such field. *)
Theorem swap_transaction_of_reply this request log resp log' :
  buildSwapTransaction this request log = (Ret resp, log') ->
  exists p tx pre swap,
    buildTx (simpleSDK this) p = Ret (Some tx)
    /\ transactions resp = pre ++ [swap]
    /\ Some (to swap) = tx_to tx
    /\ data swap = tx_data tx
    /\ value swap = match tx_value tx with
                    | Some v => if Js.nonEmpty v then v else "0"
                    | None => "0"
                    end
    /\ gasNormalised (tx_gasPrice tx) (gasPrice swap)
    /\ gasNormalised (tx_gas tx) (gasLimit swap).
Proof.
  intros H.
  destruct (buildSwapTransaction_details _ _ _ _ _ H)
    as (id & src & dest & amt & q & sp & tx & gp & gl & pre
        & _ & _ & _ & _ & _ & _ & _ & _ & _ & Htx & Hto & _ & Hgp & Hgl & Htxs & _).
  exists (buildArgs request src dest amt (priceRouteOf q)), tx, pre,
    (swapFor id tx gp gl).
  split; [assumption|]. split; [assumption|]. cbn [swapFor to data value gasPrice gasLimit].
  split; [destruct (tx_to tx); [reflexivity | discriminate Hto]|].
  split; [reflexivity|]. split; [reflexivity|].
  split; now apply optBigIntString_normalised.
Qed.

(** X9.  No transaction that [buildSwapTransaction] returns lacks a
    destination, calldata or a value: in each the [to] field is a
    non-empty string, [data] is present and [value] is a non-empty
    string. *)
Theorem transactions_are_complete this request log resp log' :
  buildSwapTransaction this request log = (Ret resp, log') ->
  Forall (fun t => Js.nonEmpty (to t) = true
                   /\ isSome (data t) = true
                   /\ Js.nonEmpty (value t) = true)
    (transactions resp).
Proof.
  intros H.
  destruct (buildSwapTransaction_details _ _ _ _ _ H)
    as (id & src & dest & amt & q & sp & tx & gp & gl & pre
        & _ & _ & Hsrc & _ & _ & _ & _ & _ & _ & _ & Hto & Hdata & _ & _ & Htxs & Hpre).
  rewrite Htxs. apply Forall_app. split.
  - destruct Hpre as [->|(cd & _ & ->)]; constructor; [|constructor].
    cbn. split; [|auto].
    now apply (address_resolved (fromChain request) (fromToken request) src).
  - constructor; [|constructor]. cbn [swapFor to data value].
    split; [|split].
    + destruct (tx_to tx); [exact Hto | discriminate Hto].
    + destruct (tx_data tx); [reflexivity | discriminate Hdata].
    + destruct (tx_value tx) as [v|]; [|reflexivity].
      destruct (Js.nonEmpty v) eqn:Hv; [exact Hv | reflexivity].
Qed.

(** [validateTokens] never throws and makes no remote call; it answers
    [true] exactly when both tokens resolve on the chain. *)
Lemma validateTokens_resolves this fromChain fromToken toToken log :
  exists answer,
    validateTokens this fromChain fromToken toToken log = (Ret answer, log)
    /\ (answer = true <->
        exists a b,
          getTokenAddress fromChain fromToken = Ret a
          /\ getTokenAddress fromChain toToken = Ret b).
Proof.
  unfold validateTokens.
  destruct (getTokenAddress fromChain fromToken) as [e|a].
  - exists false. split; [reflexivity|]. split; [discriminate|].
    intros (a & b & H & _). discriminate H.
  - destruct (getTokenAddress fromChain toToken) as [e|b].
    + exists false. split; [reflexivity|]. split; [discriminate|].
      intros (a' & b' & _ & H). discriminate H.
    + exists true. split; [reflexivity|]. split; [|reflexivity].
      intros _. now exists a, b.
Qed.

(** X10.  The tokens of a request that passes the validator pass
    [validateTokens] as well: it answers [true], without a remote
    call. *)
Theorem valid_request_validateTokens this request log :
  isValid (validateSwapRequest request) = true ->
  validateTokens this (fromChain request) (fromToken request) (toToken request) log
  = (Ret true, log).
Proof.
  intros H. destruct (valid_resolves request H) as (id & src & dest & _ & Hs & Hd).
  unfold validateTokens. now rewrite Hs, Hd.
Qed.

(** X11.  On an unsupported chain the validator reports no token: the
    messages are those of the amount, the two token names, the address
    and the chain, whatever the token directory knows. *)
Theorem unsupported_chain_skips_tokens params :
  chainSupported (fromChain params) = false ->
  errors (validateSwapRequest params) =
    report (amountRejected (amount params))
      "Invalid amount: must be a positive number"
    ++ report (tokenMissing (fromToken params)) "From token is required"
    ++ report (tokenMissing (toToken params)) "To token is required"
    ++ report (addressRejected (fromAddress params)) "Invalid from address format"
    ++ ["Unsupported chain: " +++ fromChain params].
Proof.
  intros H. rewrite validateSwapRequest_errors.
  unfold tokenUnresolved, chainRejected. rewrite H, !andb_false_r, orb_true_r.
  cbn [andb report]. now rewrite !app_nil_r.
Qed.

(** X12.  The tool never throws.  When it does not flag an error its text
    is the serialised payload of a successful build, whose
    [transactionCount] is the number of transactions, 1 or 2; when it
    flags an error its text is "Error building swap transactions: "
    followed by the message of what was thrown, or by "Unknown error". *)
Theorem tool_result args log res log' :
  buildSwapTransactionsTool args log = (res, log') ->
  (isError res = false ->
   exists resp payload,
     buildSwapTransaction constructor args log = (Ret resp, log')
     /\ stringify payload = Ret (text res)
     /\ payload_transactions payload = transactions resp
     /\ payload_quote payload = quote resp
     /\ transactionCount payload = List.length (transactions resp)
     /\ (transactionCount payload = 1%nat \/ transactionCount payload = 2%nat))
  /\ (isError res = true ->
      exists error,
        text res = "Error building swap transactions: "
                   +++ (if instanceOfError error then message error
                        else "Unknown error")
        /\ (buildSwapTransaction constructor args log = (Throw error, log')
            \/ exists resp payload,
                buildSwapTransaction constructor args log = (Ret resp, log')
                /\ stringify payload = Throw error)).
Proof.
  unfold buildSwapTransactionsTool. cbv zeta.
  destruct (buildSwapTransaction constructor args log) as [[e|resp] l] eqn:Hb.
  - intros H. injection H as <- <-. split; [discriminate|].
    intros _. exists e. split; [reflexivity | now left].
  - destruct (stringify _) as [e|json] eqn:Hs; intros H; injection H as <- <-.
    + split; [discriminate|]. intros _. exists e. split; [reflexivity|].
      right. eexists. eexists. split; [reflexivity | exact Hs].
    + split; [|discriminate]. intros _. eexists. eexists.
      split; [reflexivity|]. split; [exact Hs|]. cbn.
      split; [reflexivity|]. split; [reflexivity|]. split; [reflexivity|].
      destruct (buildSwapTransaction_details _ _ _ _ _ Hb)
        as (id & src & dest & amt & q & sp & tx & gp & gl & pre
            & _ & _ & _ & _ & _ & _ & _ & _ & _ & _ & _ & _ & _ & _ & Htxs & Hpre).
      rewrite Htxs, length_app.
      destruct Hpre as [->|(cd & _ & ->)]; cbn; auto.
Qed.



End Service.

(** ** Digit strings *)

Module Digits.

Import Js.
Import Shape.

Lemma chars_ofChars l : chars (ofChars l) = l.
Proof. apply list_ascii_of_string_of_list_ascii. Qed.

Lemma ofChars_chars s : ofChars (chars s) = s.
Proof. apply string_of_list_ascii_of_string. Qed.

Lemma isDigit_code c : isDigit c = true <-> (48 <= code c <= 57)%N.
Proof.
  unfold isDigit. rewrite andb_true_iff, !N.leb_le. tauto.
Qed.

Lemma digitVal_range c : isDigit c = true -> 0 <= digitVal c <= 9.
Proof.
  intros H. apply isDigit_code in H. unfold digitVal. lia.
Qed.

Lemma isDigit_not_space c : isDigit c = true -> isWhiteSpace c = false.
Proof.
  intros H. apply isDigit_code in H. unfold isWhiteSpace.
  apply orb_false_iff. split.
  - apply andb_false_iff. right. apply N.leb_gt. lia.
  - apply N.eqb_neq. lia.
Qed.

Lemma isDigit_not_char c d : isDigit c = true -> isDigit d = false -> isChar c d = false.
Proof.
  intros Hc Hd. unfold isChar. destruct (Ascii.eqb_spec c d) as [->|]; congruence.
Qed.

Lemma decVal_acc l : forall acc,
  decVal acc l = acc * 10 ^ Z.of_nat (List.length l) + decVal 0 l.
Proof.
  induction l as [|c l IH]; intros acc.
  - cbn. lia.
  - cbn [decVal List.length]. rewrite IH, (IH (0 * 10 + digitVal c)).
    rewrite Nat2Z.inj_succ, Z.pow_succ_r by lia. ring.
Qed.

Lemma decVal_fold l1 l2 : forall acc,
  decVal acc (l1 ++ l2) = decVal (decVal acc l1) l2.
Proof. induction l1 as [|c l1 IH]; intros acc; cbn; [reflexivity | apply IH]. Qed.

Lemma decVal_app l1 l2 :
  decVal 0 (l1 ++ l2) = decVal 0 l1 * 10 ^ Z.of_nat (List.length l2) + decVal 0 l2.
Proof. rewrite decVal_fold. apply decVal_acc. Qed.

Lemma decVal_bounds l :
  allDigits l = true -> 0 <= decVal 0 l < 10 ^ Z.of_nat (List.length l).
Proof.
  induction l as [|c l IH] using rev_ind; intros H.
  - cbn. lia.
  - unfold allDigits in *. rewrite forallb_app in H.
    apply andb_true_iff in H as [Hl Hc]. cbn in Hc. rewrite andb_true_r in Hc.
    specialize (IH Hl). apply digitVal_range in Hc.
    rewrite decVal_app, length_app. cbn [List.length decVal].
    rewrite Nat2Z.inj_add. change (Z.of_nat 1) with 1.
    rewrite Z.pow_add_r, Z.pow_1_r by lia. lia.
Qed.

Lemma allDigits_app l1 l2 :
  allDigits (l1 ++ l2) = allDigits l1 && allDigits l2.
Proof. apply forallb_app. Qed.

Lemma digit_char k :
  0 <= k <= 9 ->
  let c := ascii_of_N (Z.to_N k + 48) in
  isDigit c = true /\ digitVal c = k.
Proof.
  intros Hk c. unfold isDigit, digitVal, code, c.
  rewrite N_ascii_embedding by lia.
  split; [|lia].
  apply andb_true_iff. split; apply N.leb_le; lia.
Qed.

Lemma digitsOf_printed fuel : forall n acc,
  (1 <= fuel)%nat -> 0 <= n < 2 ^ Z.of_nat fuel ->
  exists ds, digitsOf fuel n acc = ds ++ acc /\ printed n ds.
Proof.
  induction fuel as [|f IH]; intros n acc Hf Hn; [lia|].
  cbn [digitsOf].
  assert (Hm : 0 <= n mod 10 <= 9) by (pose proof (Z.mod_pos_bound n 10); lia).
  destruct (digit_char _ Hm) as [Hd Hv].
  set (c := ascii_of_N (Z.to_N (n mod 10) + 48)) in *.
  destruct (Z.ltb_spec n 10) as [Hlt|Hge].
  - exists [c]. split; [reflexivity|]. unfold printed. cbn [List.length decVal].
    assert (Hc : allDigits [c] = true) by (cbn; now rewrite Hd).
    rewrite Z.mod_small in Hv by lia.
    split; [assumption|]. split; [lia|]. split; [lia|].
    split; [cbn; lia | left; reflexivity].
  - assert (Hf1 : (1 <= f)%nat).
    { destruct f; [|lia]. cbn in Hn. lia. }
    assert (Hdiv : 0 <= n / 10 < 2 ^ Z.of_nat f).
    { rewrite Nat2Z.inj_succ, Z.pow_succ_r in Hn by lia.
      split; [apply Z.div_pos; lia|].
      apply Z.div_lt_upper_bound; lia. }
    destruct (IH (n / 10) (c :: acc) Hf1 Hdiv) as (ds & Hds & Hall & Hval & Hlen & Hub & Hlb).
    exists (ds ++ [c]). split; [now rewrite Hds, <- app_assoc|].
    unfold printed. rewrite allDigits_app, decVal_app, length_app.
    cbn [List.length decVal Nat.add].
    rewrite Hall, Hval, Nat2Z.inj_add. change (Z.of_nat 1) with 1.
    rewrite Z.pow_add_r, Z.pow_1_r by lia.
    replace (Z.of_nat (List.length ds) + 1 - 1) with (Z.of_nat (List.length ds)) by lia.
    pose proof (Z.div_mod n 10 ltac:(lia)) as Hdm.
    repeat split.
    + cbn. now rewrite Hd.
    + cbn. lia.
    + lia.
    + lia.
    + right. destruct Hlb as [H1|Hlb].
      * rewrite H1. cbn. lia.
      * replace (Z.of_nat (List.length ds)) with (Z.of_nat (List.length ds) - 1 + 1) by lia.
        rewrite Z.pow_add_r, Z.pow_1_r by lia. lia.
Qed.

Lemma bigIntToString_printed z :
  0 <= z -> exists ds, chars (bigIntToString z) = ds /\ printed z ds.
Proof.
  intros Hz. unfold bigIntToString.
  rewrite Z.abs_eq by lia.
  destruct (Z.ltb_spec z 0) as [|_]; [lia|].
  rewrite chars_ofChars.
  destruct (digitsOf_printed (S (Z.to_nat (Z.log2 z))) z []) as (ds & Hds & Hp).
  - lia.
  - split; [lia|].
    rewrite Nat2Z.inj_succ, Z2Nat.id by apply Z.log2_nonneg.
    destruct (Z.eq_dec z 0) as [->|Hnz]; [cbn; lia|].
    apply Z.log2_spec. lia.
  - exists ds. rewrite Hds, app_nil_r. auto.
Qed.

(** *** Reading digits back *)

Lemma dropWhile_noSpace l : noSpace l = true -> dropWhile isWhiteSpace l = l.
Proof.
  destruct l as [|c l]; [reflexivity|]. cbn. intros H.
  apply andb_true_iff in H as [H _]. apply negb_true_iff in H. now rewrite H.
Qed.

Lemma noSpace_rev l : noSpace l = true -> noSpace (rev l) = true.
Proof.
  unfold noSpace. rewrite !forallb_forall. intros H c Hc.
  apply H. now apply in_rev.
Qed.

Lemma trimChars_noSpace l : noSpace l = true -> trimChars l = l.
Proof.
  intros H. unfold trimChars.
  rewrite (dropWhile_noSpace l H), (dropWhile_noSpace _ (noSpace_rev l H)).
  apply rev_involutive.
Qed.

Lemma allDigits_noSpace l : allDigits l = true -> noSpace l = true.
Proof.
  unfold allDigits, noSpace. rewrite !forallb_forall. intros H c Hc.
  apply negb_true_iff, isDigit_not_space. now apply H.
Qed.

Lemma radixPrefix_second z p r :
  isDigit p = true \/ isChar p "." = true -> radixPrefix (z :: p :: r) = None.
Proof.
  intros H. cbn [radixPrefix].
  destruct (negb (isChar z "0")); [reflexivity|].
  assert (Hx : forall d, isDigit d = false -> isChar d "." = false -> isChar p d = false).
  { intros d Hd Hdot. destruct H as [H|H].
    - now apply isDigit_not_char.
    - unfold isChar in *. apply Ascii.eqb_eq in H. subst p.
      rewrite Ascii.eqb_sym. exact Hdot. }
  rewrite !Hx by reflexivity. reflexivity.
Qed.

Lemma radixPrefix_digits l : allDigits l = true -> radixPrefix l = None.
Proof.
  destruct l as [|z [|p r]]; try reflexivity. intros H.
  apply radixPrefix_second. left.
  cbn in H. apply andb_true_iff in H as [_ H].
  now apply andb_true_iff in H as [H _].
Qed.

Lemma stringToBigInt_digits l :
  allDigits l = true -> stringToBigInt (ofChars l) = Some (decVal 0 l).
Proof.
  intros H. unfold stringToBigInt.
  rewrite chars_ofChars, (trimChars_noSpace l (allDigits_noSpace l H)).
  destruct l as [|c r]; [reflexivity|].
  rewrite (radixPrefix_digits _ H).
  assert (Hc : isDigit c = true) by (cbn in H; now apply andb_true_iff in H as [H _]).
  rewrite !(isDigit_not_char c) by (assumption || reflexivity).
  now rewrite H.
Qed.

Lemma stringToBigInt_minus l :
  allDigits l = true ->
  stringToBigInt (ofChars ("-"%char :: l)) =
    match l with [] => None | _ => Some (- decVal 0 l) end.
Proof.
  intros H. unfold stringToBigInt. rewrite chars_ofChars, trimChars_noSpace.
  - assert (Hr : radixPrefix ("-"%char :: l) = None) by (destruct l as [|p r]; reflexivity).
    rewrite Hr. change (isChar "-" "-") with true. cbn iota.
    rewrite H. destruct l; reflexivity.
  - cbn. now apply allDigits_noSpace.
Qed.

Local Abbreviation len l := (Z.of_nat (List.length l)).

Lemma pow10_pos n : 0 <= n -> 0 < 10 ^ n.
Proof. intros H. apply Z.pow_pos_nonneg; lia. Qed.

(** *** The shape of a decimal number *)

Lemma span_spec p l :
  l = fst (span p l) ++ snd (span p l)
  /\ forallb p (fst (span p l)) = true
  /\ stops p (snd (span p l)).
Proof.
  induction l as [|c l IH]; [cbn; auto|].
  cbn [span]. destruct (p c) eqn:Hc.
  - destruct (span p l) as [a b]. cbn [fst snd] in *.
    destruct IH as (-> & Ha & Hb). cbn. rewrite Hc, Ha. auto.
  - cbn. auto.
Qed.

Lemma span_app_stop p a b :
  forallb p a = true -> stops p b -> span p (a ++ b) = (a, b).
Proof.
  intros Ha Hb. induction a as [|c a IH]; cbn.
  - destruct b as [|d b]; [reflexivity|]. cbn in Hb. cbn. now rewrite Hb.
  - cbn in Ha. apply andb_true_iff in Ha as [Hc Ha]. now rewrite Hc, (IH Ha).
Qed.

Lemma isDigit_not_point c : isDigit c = true -> isChar c "." = false.
Proof. intros H. now apply isDigit_not_char. Qed.

(** *** What [Number] reads in a decimal number *)

Lemma plain_parts ip dot fp :
  allDigits ip = true -> allDigits fp = true ->
  forallb plain (ip ++ point dot fp) = true.
Proof.
  intros Hip Hfp. unfold allDigits, plain in *.
  rewrite forallb_app. apply andb_true_iff. split.
  - rewrite forallb_forall in *. intros c Hc. now rewrite Hip.
  - destruct dot; [|reflexivity]. cbn. rewrite forallb_forall in *.
    intros c Hc. now rewrite Hfp.
Qed.

Lemma plain_not_char c d :
  plain c = true -> isDigit d = false -> isChar d "." = false -> isChar c d = false.
Proof.
  unfold plain. intros H Hd Hp. apply orb_true_iff in H as [H|H].
  - now apply isDigit_not_char.
  - unfold isChar in *. apply Ascii.eqb_eq in H. subst c.
    now rewrite Ascii.eqb_sym.
Qed.

Lemma plain_noSpace l : forallb plain l = true -> noSpace l = true.
Proof.
  unfold noSpace. rewrite !forallb_forall. intros H c Hc.
  specialize (H c Hc). unfold plain in H. apply orb_true_iff in H as [H|H].
  - now rewrite isDigit_not_space.
  - apply Ascii.eqb_eq in H. now subst c.
Qed.

Lemma radixPrefix_plain l : forallb plain l = true -> radixPrefix l = None.
Proof.
  destruct l as [|z [|p r]]; try reflexivity. intros H.
  cbn in H. apply andb_true_iff in H as [_ H]. apply andb_true_iff in H as [H _].
  apply radixPrefix_second. unfold plain in H. now apply orb_true_iff in H.
Qed.

Lemma not_Infinity l :
  forallb plain l = true -> String.eqb (ofChars l) "Infinity" = false.
Proof.
  destruct l as [|c l]; [reflexivity|]. intros H.
  cbn in H. apply andb_true_iff in H as [H _].
  cbn. fold (isChar c "I").
  now rewrite (plain_not_char c "I" H) by reflexivity.
Qed.

Lemma unsignedDecimal_parts neg ip dot fp :
  allDigits ip = true -> allDigits fp = true -> (dot = false -> fp = []) ->
  unsignedDecimal neg (ip ++ point dot fp) =
    match ip ++ fp with
    | [] => NotANumber
    | _ :: _ => Decimal neg (decVal 0 (ip ++ fp)) (- len fp)
    end.
Proof.
  intros Hip Hfp Hdot. unfold unsignedDecimal.
  rewrite (not_Infinity _ (plain_parts ip dot fp Hip Hfp)).
  rewrite (span_app_stop isDigit ip (point dot fp) Hip)
    by (destruct dot; cbn; auto).
  destruct dot.
  - cbn [point]. change (isChar "." ".") with true. cbn iota.
    rewrite <- (app_nil_r fp) at 1.
    rewrite (span_app_stop isDigit fp [] Hfp I).
    destruct (ip ++ fp); reflexivity.
  - rewrite (Hdot eq_refl). cbn [point]. destruct (ip ++ []); reflexivity.
Qed.

Lemma Number_parts a neg ip dot fp :
  Parts (chars a) neg ip dot fp ->
  Number a =
    match ip ++ fp with
    | [] => match chars a with [] => Decimal false 0 0 | _ :: _ => NotANumber end
    | _ :: _ => Decimal neg (decVal 0 (ip ++ fp)) (- len fp)
    end.
Proof.
  intros [Heq Hip Hfp Hdot]. unfold Number.
  pose proof (plain_parts ip dot fp Hip Hfp) as Hplain.
  pose proof (unsignedDecimal_parts neg ip dot fp Hip Hfp Hdot) as Hu.
  rewrite Heq. destruct neg; cbn [sign app].
  - rewrite trimChars_noSpace by (cbn; now apply plain_noSpace).
    assert (Hr : forall l, radixPrefix ("-"%char :: l) = None)
      by (intros [|p r]; reflexivity).
    rewrite Hr. change (isChar "-" "-") with true. cbn iota.
    rewrite Hu. destruct (ip ++ fp); reflexivity.
  - rewrite trimChars_noSpace by now apply plain_noSpace.
    destruct (ip ++ point dot fp) as [|c r] eqn:El.
    + destruct ip; [|discriminate]. destruct dot; [discriminate|].
      now rewrite (Hdot eq_refl).
    + rewrite (radixPrefix_plain _ Hplain).
      cbn in Hplain. apply andb_true_iff in Hplain as [Hc _].
      rewrite !(plain_not_char c _ Hc) by reflexivity.
      rewrite Hu. destruct (ip ++ fp); reflexivity.
Qed.

Lemma stringToBigInt_bigIntToString z :
  stringToBigInt (bigIntToString z) = Some z.
Proof.
  destruct (Z.ltb_spec z 0) as [Hneg|Hpos].
  - destruct (bigIntToString_printed (Z.abs z) ltac:(lia))
      as (ds & Hds & Hall & Hval & Hlen & _).
    assert (E : bigIntToString z = ofChars ("-"%char :: ds)).
    { rewrite <- Hds. unfold bigIntToString. rewrite (Z.abs_eq (Z.abs z)) by lia.
      destruct (Z.ltb_spec z 0); [|lia].
      destruct (Z.ltb_spec (Z.abs z) 0); [lia|].
      now rewrite chars_ofChars. }
    rewrite E, (stringToBigInt_minus ds Hall), Hval.
    destruct ds; [cbn in Hlen; lia|]. f_equal. lia.
  - destruct (bigIntToString_printed z Hpos) as (ds & Hds & Hall & Hval & _).
    rewrite <- (ofChars_chars (bigIntToString z)), Hds.
    now rewrite (stringToBigInt_digits ds Hall), Hval.
Qed.

(** *** The valid numeric strings *)

Lemma parts_decimalNumber l neg ip dot fp :
  Parts l neg ip dot fp -> ip ++ fp <> [] ->
  Units.decimalNumber l = Some (neg, ip, fp).
Proof.
  intros [Heq Hip Hfp Hdot] Hne. unfold Units.decimalNumber.
  assert (Hneg : match l with c :: _ => isChar c "-" | [] => false end = neg).
  { rewrite Heq. destruct neg; [reflexivity|]. cbn [sign app].
    destruct ip as [|c ip'].
    - destruct dot; reflexivity.
    - cbn in Hip. apply andb_true_iff in Hip as [Hc _].
      now apply isDigit_not_char. }
  rewrite Hneg.
  assert (Hl1 : (if neg then tl l else l) = ip ++ point dot fp)
    by (rewrite Heq; destruct neg; reflexivity).
  rewrite Hl1, (span_app_stop isDigit ip (point dot fp) Hip)
    by (destruct dot; cbn; auto).
  assert (Hfp' : span isDigit fp = (fp, [])).
  { rewrite <- (app_nil_r fp) at 1. now apply span_app_stop. }
  destruct dot.
  - cbn [point]. change (isChar "." ".") with true. cbn iota.
    rewrite Hfp'. destruct (ip ++ fp); [contradiction | reflexivity].
  - rewrite (Hdot eq_refl) in *. cbn [point span].
    destruct (ip ++ []); [contradiction | reflexivity].
Qed.

Lemma decimalNumber_parts l neg ip fp :
  Units.decimalNumber l = Some (neg, ip, fp) ->
  exists dot, Parts l neg ip dot fp /\ ip ++ fp <> [].
Proof.
  unfold Units.decimalNumber.
  set (negative := match l with c :: _ => isChar c "-" | [] => false end).
  set (l1 := if negative then tl l else l).
  assert (Hl : l = sign negative ++ l1).
  { unfold l1, negative. destruct l as [|c r]; [reflexivity|].
    destruct (isChar c "-") eqn:Hc; [|reflexivity].
    apply Ascii.eqb_eq in Hc. now subst c. }
  destruct (span_spec isDigit l1) as (H1 & Hip & Hstop).
  destruct (span isDigit l1) as [ip' r1]. cbn [fst snd] in *.
  set (r2 := match r1 with
             | c :: r => if isChar c "." then r else r1
             | [] => r1
             end).
  destruct (span_spec isDigit r2) as (H2 & Hfp & _).
  destruct (span isDigit r2) as [fp' r3]. cbn [fst snd] in *.
  destruct r3 as [|x r3]; [|discriminate].
  destruct (ip' ++ fp') eqn:E; [discriminate|].
  intros H. injection H as <- <- <-. rewrite app_nil_r in H2.
  assert (Hr1 : exists dot, r1 = point dot fp' /\ (dot = false -> fp' = [])).
  { unfold r2 in H2. destruct r1 as [|c r].
    - exists false. split; [reflexivity|]. intros _. now symmetry.
    - destruct (isChar c ".") eqn:Hc.
      + apply Ascii.eqb_eq in Hc. subst c. exists true. split; [now rewrite H2|].
        discriminate.
      + cbn in Hstop. rewrite <- H2 in Hfp.
        cbn in Hfp. apply andb_true_iff in Hfp as [Hy _]. congruence. }
  destruct Hr1 as (dot & Hr1 & Hdot).
  exists dot. split.
  - split; try assumption. now rewrite Hl, H1, Hr1.
  - rewrite E. discriminate.
Qed.

(** The test of the conversion accepts the decimal numbers and nothing
    else. *)
Lemma isDecimalNumber_decimal l :
  Units.isDecimalNumber l = true <-> decimal l.
Proof.
  unfold Units.isDecimalNumber. split.
  - destruct (Units.decimalNumber l) as [[[neg ip] fp]|] eqn:E; [|discriminate].
    intros _. destruct (decimalNumber_parts _ _ _ _ E) as (dot & HP & Hne).
    now exists neg, ip, dot, fp.
  - intros (neg & ip & dot & fp & HP & Hne).
    now rewrite (parts_decimalNumber _ _ _ _ _ HP Hne).
Qed.

(** *** The conversion of a decimal number *)

Lemma decVal_nonzero cut :
  allDigits cut = true ->
  existsb (fun c => negb (isChar c "0")) cut = true ->
  0 < decVal 0 cut.
Proof.
  induction cut as [|c r IH]; [discriminate|].
  intros Hall Hex. cbn in Hall. apply andb_true_iff in Hall as [Hc Hr].
  change (c :: r) with ([c] ++ r). rewrite decVal_app.
  change (decVal 0 [c]) with (0 * 10 + digitVal c).
  pose proof (decVal_bounds r Hr) as Hb.
  pose proof (digitVal_range c Hc) as Hv.
  pose proof (pow10_pos (len r) ltac:(lia)) as Hp.
  cbn [existsb] in Hex. apply orb_true_iff in Hex as [Hex|Hex].
  - assert (1 <= digitVal c).
    { destruct (Z.eq_dec (digitVal c) 0) as [E|E]; [|lia].
      unfold digitVal, code in E.
      assert (Ec : c = "0"%char).
      { rewrite <- (ascii_N_embedding c). replace (N_of_ascii c) with 48%N by lia.
        reflexivity. }
      subst c. discriminate Hex. }
    nia.
  - specialize (IH Hr Hex). nia.
Qed.

Lemma allDigits_firstn_skipn k l :
  allDigits l = true ->
  allDigits (firstn k l) = true /\ allDigits (skipn k l) = true.
Proof.
  intros H. rewrite <- (firstn_skipn k l), allDigits_app in H.
  now apply andb_true_iff in H.
Qed.

(** On an amount of that shape the conversion returns an integer less
    than one base unit away from the amount times ten to the decimals. *)
Lemma parseUnits_value roundUp a d neg ip dot fp :
  0 <= d ->
  Parts (chars a) neg ip dot fp -> ip ++ fp <> [] ->
  exists n,
    Units.parseUnits roundUp a d = Ret n
    /\ Z.abs (n * 10 ^ len fp
              - (if neg then - decVal 0 (ip ++ fp) else decVal 0 (ip ++ fp)) * 10 ^ d)
       < 10 ^ len fp.
Proof.
  intros Hd HP Hne. unfold Units.parseUnits.
  rewrite (parts_decimalNumber _ neg ip dot fp HP Hne).
  destruct HP as [_ Hip Hfp _].
  set (kept := firstn (Z.to_nat d) fp). set (cut := skipn (Z.to_nat d) fp).
  set (W := decVal 0 (ip ++ kept)).
  set (r := existsb (fun c => negb (isChar c "0")) cut && roundUp cut).
  eexists. split; [reflexivity|].
  assert (Efp : fp = kept ++ cut) by (symmetry; apply firstn_skipn).
  destruct (allDigits_firstn_skipn (Z.to_nat d) fp Hfp) as [Hkept Hcut].
  fold kept cut in Hkept, Hcut.
  pose proof (decVal_bounds cut Hcut) as HC.
  assert (HA : decVal 0 (ip ++ fp) = W * 10 ^ len cut + decVal 0 cut).
  { rewrite Efp at 1. rewrite app_assoc. apply decVal_app. }
  assert (Hlen : len fp = len kept + len cut).
  { rewrite Efp at 1. rewrite length_app. lia. }
  assert (Hk : len kept <= d /\ (cut <> [] -> len kept = d)).
  { unfold kept, cut. rewrite length_firstn. split; [lia|].
    intros Hc. destruct (Nat.le_gt_cases (List.length fp) (Z.to_nat d)) as [Hle|Hgt].
    - now rewrite skipn_all2 in Hc.
    - lia. }
  destruct Hk as [Hk1 Hk2].
  set (u := if r then W * 10 ^ (d - len kept) + 1 else W * 10 ^ (d - len kept)).
  assert (Hcore : Z.abs (u * 10 ^ len fp - decVal 0 (ip ++ fp) * 10 ^ d) < 10 ^ len fp).
  { rewrite HA, Hlen. destruct (list_eq_dec ascii_dec cut []) as [Ecut|Ecut].
    - assert (Hr : r = false) by (unfold r; now rewrite Ecut).
      unfold u. rewrite Hr, Ecut.
      cbn [List.length decVal]. change (Z.of_nat 0) with 0.
      rewrite Z.add_0_r, Z.pow_0_r.
      replace (W * 10 ^ (d - len kept) * 10 ^ len kept - (W * 1 + 0) * 10 ^ d) with 0.
      + cbn [Z.abs]. apply pow10_pos. lia.
      + replace d with ((d - len kept) + len kept) at 2 by lia.
        rewrite Z.pow_add_r by lia. ring.
    - specialize (Hk2 Ecut).
      unfold u. rewrite Hk2, Z.sub_diag, Z.pow_0_r, Z.mul_1_r.
      rewrite Z.pow_add_r by lia.
      pose proof (pow10_pos d Hd) as Hpd.
      pose proof (pow10_pos (len cut) ltac:(lia)) as Hpc.
      set (C := decVal 0 cut) in *. set (P := 10 ^ len cut) in *.
      replace ((if r then W + 1 else W) * (10 ^ d * P) - (W * P + C) * 10 ^ d)
        with (10 ^ d * ((if r then P else 0) - C)) by (destruct r; ring).
      rewrite Z.abs_mul, (Z.abs_eq (10 ^ d)) by lia.
      apply Z.mul_lt_mono_pos_l; [assumption|].
      destruct r eqn:Er.
      + unfold r in Er. apply andb_true_iff in Er as [Hex _].
        pose proof (decVal_nonzero cut Hcut Hex) as Hpos. fold C in Hpos. lia.
      + lia. }
  fold kept cut W r u.
  destruct neg.
  - replace (- u * 10 ^ len fp - - decVal 0 (ip ++ fp) * 10 ^ d)
      with (- (u * 10 ^ len fp - decVal 0 (ip ++ fp) * 10 ^ d)) by ring.
    now rewrite Z.abs_opp.
  - exact Hcore.
Qed.

(** A string of another shape is refused. *)
Lemma parseUnits_refuses roundUp a d :
  (forall neg ip dot fp, Parts (chars a) neg ip dot fp -> ip ++ fp = []) ->
  exists e, Units.parseUnits roundUp a d = Throw e.
Proof.
  intros H. unfold Units.parseUnits.
  destruct (Units.decimalNumber (chars a)) as [[[neg ip] fp]|] eqn:E; [|now eexists].
  destruct (decimalNumber_parts _ _ _ _ E) as (dot & HP & Hne).
  now specialize (H _ _ _ _ HP).
Qed.

End Digits.

(** ** The amount, converted and read back *)

(** C5 (amended).  Let [a] be a decimal number: an optional minus sign,
    digits, and optionally a point and digits, with at least one digit.
    Against the [d] decimals of the token, [getTokenAmount] converts [a]
    to a base-unit integer string, whatever becomes of the digits beyond
    the precision.  The string reads back as an integer less than one
    base unit away from the amount times ten to the [d], and as exactly
    that product when it is an integer, that is when [a] has no more than
    [d] decimals.  [Number] reads the same value in [a].  Every other
    string is refused by the conversion with "Failed to parse token
    amount", and a string that [Number] does not read as a number is
    refused by the validator in every request that carries it. *)
Theorem amount_round_trip getTokenDecimalsFromUtils roundUp
    (a chainName tokenSymbol : string) :
  0 <= getTokenDecimalsForChain getTokenDecimalsFromUtils chainName tokenSymbol ->
  let d := getTokenDecimalsForChain getTokenDecimalsFromUtils chainName tokenSymbol in
  let converted :=
    getTokenAmount getTokenDecimalsFromUtils (Units.parseUnits roundUp)
      a chainName tokenSymbol in
  (forall neg ip dot fp,
     Shape.Parts (Js.chars a) neg ip dot fp -> ip ++ fp <> [] ->
     let m := Js.decVal 0 (ip ++ fp) in
     let k := Z.of_nat (List.length fp) in
     exists n,
       converted = Ret (Js.bigIntToString n)
       /\ Js.stringToBigInt (Js.bigIntToString n) = Some n
       /\ Js.Number a = Js.Decimal neg m (- k)
       /\ Z.abs (n * 10 ^ k - (if neg then - m else m) * 10 ^ d) < 10 ^ k
       /\ ((10 ^ k | m * 10 ^ d) -> n * 10 ^ k = (if neg then - m else m) * 10 ^ d))
  /\ (~ Shape.decimal (Js.chars a) ->
      converted = Throw (Error ("Failed to parse token amount: " +++ a)))
  /\ (Js.isNaN (Js.Number a) = true ->
      forall getTokenAddressFromUtils params,
        amount params = a ->
        isValid (validateSwapRequest getTokenAddressFromUtils params) = false).
Proof.
  intros Hd d converted. split; [|split].
  - intros neg ip dot fp HP Hne m k.
    destruct (Digits.parseUnits_value roundUp a d neg ip dot fp Hd HP Hne)
      as (n & Hn & Hb).
    fold m k in Hb. exists n.
    split; [unfold converted, getTokenAmount; fold d; now rewrite Hn|].
    split; [apply Digits.stringToBigInt_bigIntToString|].
    split.
    { rewrite (Digits.Number_parts a neg ip dot fp HP).
      destruct (ip ++ fp) eqn:E; [contradiction | reflexivity]. }
    split; [exact Hb|].
    intros (q & Hq).
    assert (Hdiv : (if neg then - m else m) * 10 ^ d
                   = (if neg then - q else q) * 10 ^ k)
      by (destruct neg; lia).
    rewrite Hdiv in *.
    assert (Hk : 0 < 10 ^ k) by (apply Digits.pow10_pos; lia).
    replace (n * 10 ^ k - (if neg then - q else q) * 10 ^ k)
      with ((n - (if neg then - q else q)) * 10 ^ k) in Hb by ring.
    rewrite Z.abs_mul, (Z.abs_eq (10 ^ k)) in Hb by lia.
    assert (Z.abs (n - (if neg then - q else q)) < 1) by nia.
    f_equal. lia.
  - intros Hshape.
    destruct (Digits.parseUnits_refuses roundUp a d) as (e & He).
    + intros neg ip dot fp HP. destruct (ip ++ fp) eqn:E; [reflexivity|].
      exfalso. apply Hshape. exists neg, ip, dot, fp. split; [assumption|].
      rewrite E. discriminate.
    + unfold converted, getTokenAmount. fold d. now rewrite He.
  - intros Hnan getTokenAddressFromUtils params Ha.
    destruct (isValid (validateSwapRequest getTokenAddressFromUtils params)) eqn:Hv;
      [|reflexivity].
    apply isValid_errors in Hv. rewrite validateSwapRequest_errors in Hv.
    rewrite Ha in Hv. unfold amountRejected in Hv.
    rewrite Hnan, orb_true_r in Hv. discriminate Hv.
Qed.

(** X14.  For any conversion function, the amount string that
    [getTokenAmount] returns is the decimal form of the integer the
    conversion produced and reads back, as a [BigInt], as that integer;
    and whatever error the conversion raises, [getTokenAmount] raises
    "Failed to parse token amount: " followed by the amount as given. *)
Theorem getTokenAmount_canonical getTokenDecimalsFromUtils parseUnits
    (a chainName tokenSymbol : string) :
  let d := getTokenDecimalsForChain getTokenDecimalsFromUtils chainName tokenSymbol in
  let converted :=
    getTokenAmount getTokenDecimalsFromUtils parseUnits a chainName tokenSymbol in
  (forall s, converted = Ret s ->
     exists n, parseUnits a d = Ret n
               /\ s = Js.bigIntToString n
               /\ Js.stringToBigInt s = Some n)
  /\ (forall e, parseUnits a d = Throw e ->
       converted = Throw (Error ("Failed to parse token amount: " +++ a))).
Proof.
  cbv zeta. unfold getTokenAmount. split.
  - intros s H.
    destruct (parseUnits a _) as [e|n]; [discriminate H|].
    injection H as <-. exists n. split; [reflexivity|]. split; [reflexivity|].
    apply Digits.stringToBigInt_bigIntToString.
  - intros e H. now rewrite H.
Qed.

(** ** The properties on the sample collaborators *)

Local Abbreviation sampleService quoted :=
  (constructor (fun _ => Sample.sdk quoted) "6.2").

Local Abbreviation sampleBuild quoted :=
  (buildSwapTransaction Sample.chainIdFromUtils Sample.tokenAddressFromUtils
     Sample.tokenDecimalsFromUtils (Units.parseUnits Sample.halfUp) unit tt Sample.encode
     (sampleService quoted)).

Local Abbreviation sampleQuote quoted :=
  (getSwapQuote Sample.chainIdFromUtils Sample.tokenAddressFromUtils
     Sample.tokenDecimalsFromUtils (Units.parseUnits Sample.halfUp) (sampleService quoted)).

Local Abbreviation sampleAddress :=
  (getTokenAddress Sample.tokenAddressFromUtils).

Ltac by_evaluation := vm_compute; reflexivity.

(** One unit of USDC for DAI on Ethereum: an approval, then the swap. *)
Lemma transactions_approval_then_swap_witness :
  exists resp log',
    sampleBuild (Ret Sample.samplePriceRoute) (Sample.request "1" "USDC" "DAI") []
      = (Ret resp, log')
    /\ exists src id p tx swap,
        sampleAddress "ETHEREUM" "USDC" = Ret src
        /\ buildTx (Sample.sdk (Ret Sample.samplePriceRoute)) p = Ret (Some tx)
        /\ isSwapOf id tx swap
        /\ (nativeSentinel src = false ->
            exists spender amt calldata,
              Sample.encode tt "approve" [spender; amt] = Ret calldata
              /\ transactions resp = [approvalFor id src calldata; swap])
        /\ (nativeSentinel src = true -> transactions resp = [swap]).
Proof.
  eexists. eexists. split; [by_evaluation|].
  eapply (transactions_approval_then_swap Sample.chainIdFromUtils
            Sample.tokenAddressFromUtils Sample.tokenDecimalsFromUtils
            (Units.parseUnits Sample.halfUp) unit tt Sample.encode
            (sampleService (Ret Sample.samplePriceRoute))
            (Sample.request "1" "USDC" "DAI") []).
  by_evaluation.
Defined.

(** ETH for DAI: the directory spells the native address in mixed case,
    it equals the all-e address up to case, and the result is the swap
    alone.  USDC for DAI: the address of USDC equals neither address, and
    the result has two transactions. *)
Lemma native_detection_exact_witness :
  (exists resp log',
     sampleBuild (Ret Sample.samplePriceRoute) (Sample.request "0.1" "ETH" "DAI") []
       = (Ret resp, log')
     /\ sampleAddress "ETHEREUM" "ETH" = Ret "0xEeeeeEeeeEeEeeEeEeEeeEEEeeeeEeeeeeeeEEeE"
     /\ equalUpToCase "0xEeeeeEeeeEeEeeEeEeEeeEEEeeeeEeeeeeeeEEeE"
          "0xeeeeeeeeeeeeeeeeeeeeeeeeeeeeeeeeeeeeeeee" = true
     /\ List.length (transactions resp) = 1%nat)
  /\ (exists resp log',
       sampleBuild (Ret Sample.samplePriceRoute) (Sample.request "1" "USDC" "DAI") []
         = (Ret resp, log')
       /\ sampleAddress "ETHEREUM" "USDC" = Ret "0xA0b86991c6218b36c1d19D4a2e9Eb0cE3606eB48"
       /\ equalUpToCase "0xA0b86991c6218b36c1d19D4a2e9Eb0cE3606eB48"
            "0xeeeeeeeeeeeeeeeeeeeeeeeeeeeeeeeeeeeeeeee" = false
       /\ equalUpToCase "0xA0b86991c6218b36c1d19D4a2e9Eb0cE3606eB48"
            "0x0000000000000000000000000000000000000000" = false
       /\ List.length (transactions resp) = 2%nat).
Proof.
  split.
  - destruct (native_detection_exact Sample.chainIdFromUtils
                Sample.tokenAddressFromUtils Sample.tokenDecimalsFromUtils
                (Units.parseUnits Sample.halfUp) unit tt Sample.encode
                (sampleService (Ret Sample.samplePriceRoute))
                (Sample.request "0.1" "ETH" "DAI") [] _ _ ltac:(by_evaluation))
      as (src & Hsrc & Hone & _).
    vm_compute in Hsrc. injection Hsrc as <-.
    eexists. eexists. split; [by_evaluation|]. split; [by_evaluation|].
    split; [by_evaluation|].
    apply Hone. left. by_evaluation.
  - destruct (native_detection_exact Sample.chainIdFromUtils
                Sample.tokenAddressFromUtils Sample.tokenDecimalsFromUtils
                (Units.parseUnits Sample.halfUp) unit tt Sample.encode
                (sampleService (Ret Sample.samplePriceRoute))
                (Sample.request "1" "USDC" "DAI") [] _ _ ltac:(by_evaluation))
      as (src & Hsrc & _ & Htwo).
    vm_compute in Hsrc. injection Hsrc as <-.
    eexists. eexists. split; [by_evaluation|]. split; [by_evaluation|].
    split; [by_evaluation|]. split; [by_evaluation|].
    apply Htwo. split; by_evaluation.
Defined.

(** C6, as stated, fails on a quote in the market shape: the response
    carries the quote's [market] property and so does the call to
    [buildTx], not the quote that the pricing call returned. *)
Lemma quote_not_passed_as_obtained :
  exists resp log' qp bp,
    sampleBuild (Ret Sample.marketQuote) (Sample.request "1" "USDC" "DAI") []
      = (Ret resp, log')
    /\ log' = [CallGetQuote qp; CallGetSpender; CallBuildTx bp]
    /\ getQuote (Sample.sdk (Ret Sample.marketQuote)) qp = Ret Sample.marketQuote
    /\ quote resp <> Sample.marketQuote
    /\ b_priceRoute bp <> Sample.marketQuote.
Proof.
  eexists. eexists. eexists. eexists.
  split; [by_evaluation|]. split; [reflexivity|]. split; [reflexivity|].
  split; cbn; intros H; discriminate H.
Defined.

Lemma price_route_passed_through_witness :
  exists resp log',
    sampleBuild (Ret Sample.marketQuote) (Sample.request "1" "USDC" "DAI") []
      = (Ret resp, log')
    /\ exists qp q bp,
        log' = [] ++ [CallGetQuote qp; CallGetSpender; CallBuildTx bp]
        /\ getQuote (Sample.sdk (Ret Sample.marketQuote)) qp = Ret q
        /\ quote resp = priceRouteOf q
        /\ b_priceRoute bp = priceRouteOf q
        /\ (hasMarket q = Ret false -> priceRouteOf q = q).
Proof.
  eexists. eexists. split; [by_evaluation|].
  eapply (price_route_passed_through Sample.chainIdFromUtils
            Sample.tokenAddressFromUtils Sample.tokenDecimalsFromUtils
            (Units.parseUnits Sample.halfUp) unit tt Sample.encode
            (sampleService (Ret Sample.marketQuote))
            (Sample.request "1" "USDC" "DAI") []).
  by_evaluation.
Defined.

(** C7, as stated, fails on a quote without a destination amount:
    [getSwapQuote] returns it. *)
Lemma quote_without_destAmount_returned :
  Js.get (priceRouteOf Sample.partialQuote) "destAmount" = Js.JsUndefined
  /\ exists log',
      sampleQuote (Ret Sample.partialQuote) (Sample.request "1" "SRC" "DEST") []
        = (Ret Sample.partialQuote, log').
Proof.
  split; [reflexivity|]. eexists. by_evaluation.
Defined.

Lemma getSwapQuote_quote_only_witness :
  sampleQuote (Ret Js.JsNull) (Sample.request "1" "SRC" "DEST") []
  = (Throw (Error "Failed to get quote from VeloraDEX"),
     [CallGetQuote
        (quoteArgs Sample.tokenDecimalsFromUtils (Sample.request "1" "SRC" "DEST")
           "0xSRC_TOKEN_ADDRESS" "0xDEST_TOKEN_ADDRESS" "1000000000000000000")]).
Proof.
  refine (proj2 (getSwapQuote_quote_only Sample.chainIdFromUtils
                   Sample.tokenAddressFromUtils Sample.tokenDecimalsFromUtils
                   (Units.parseUnits Sample.halfUp) (sampleService (Ret Js.JsNull))
                   (Sample.request "1" "SRC" "DEST") [])
            "0xSRC_TOKEN_ADDRESS" "0xDEST_TOKEN_ADDRESS" "1000000000000000000"
            _ _ _ _); by_evaluation.
Defined.

Lemma approval_transaction_fields_witness :
  exists resp log',
    sampleBuild (Ret Sample.samplePriceRoute) (Sample.request "1" "USDC" "DAI") []
      = (Ret resp, log')
    /\ exists approval swap spender amt calldata qp bp,
        transactions resp = [approval; swap]
        /\ to approval = "0xA0b86991c6218b36c1d19D4a2e9Eb0cE3606eB48"
        /\ value approval = "0"
        /\ data approval = Some calldata
        /\ Sample.encode tt "approve" [spender; amt] = Ret calldata
        /\ getSpender (Sample.sdk (Ret Sample.samplePriceRoute)) = Ret spender
        /\ getTokenAmount Sample.tokenDecimalsFromUtils (Units.parseUnits Sample.halfUp)
             "1" "ETHEREUM" "USDC" = Ret amt
        /\ log' = [] ++ [CallGetQuote qp; CallGetSpender; CallBuildTx bp]
        /\ q_amount qp = amt
        /\ b_srcAmount bp = amt.
Proof.
  eexists. eexists. split; [by_evaluation|].
  eapply (approval_transaction_fields Sample.chainIdFromUtils
            Sample.tokenAddressFromUtils Sample.tokenDecimalsFromUtils
            (Units.parseUnits Sample.halfUp) unit tt Sample.encode
            (sampleService (Ret Sample.samplePriceRoute))
            (Sample.request "1" "USDC" "DAI") []); by_evaluation.
Defined.

(** C9, as stated, fails on an error of the HTTP client whose reply has
    neither field: the error thrown is neither taken from the reply nor
    the error that was raised. *)
Lemma reply_without_fields_replaced :
  response Sample.badGateway = Some (Js.JsObject [])
  /\ Js.getOpt (Js.JsObject []) "message" = Js.JsUndefined
  /\ Js.getOpt (Js.JsObject []) "error" = Js.JsUndefined
  /\ exists log',
      getSwapQuote_try Sample.chainIdFromUtils Sample.tokenAddressFromUtils
        Sample.tokenDecimalsFromUtils (Units.parseUnits Sample.halfUp)
        (sampleService (Throw Sample.badGateway)) (Sample.request "1" "SRC" "DEST") []
      = (Throw Sample.badGateway, log')
      /\ sampleQuote (Throw Sample.badGateway) (Sample.request "1" "SRC" "DEST") []
         = (Throw (Error "VeloraDEX API request failed"), log')
      /\ Error "VeloraDEX API request failed" <> Sample.badGateway.
Proof.
  repeat split; try reflexivity.
  eexists. split; [by_evaluation|]. split; [by_evaluation|].
  intros H. discriminate H.
Defined.

Lemma api_error_surfaced_witness :
  exists e',
    sampleQuote (Throw Sample.apiError) (Sample.request "1" "SRC" "DEST") []
    = (Throw e',
       [CallGetQuote
          (quoteArgs Sample.tokenDecimalsFromUtils (Sample.request "1" "SRC" "DEST")
             "0xSRC_TOKEN_ADDRESS" "0xDEST_TOKEN_ADDRESS" "1000000000000000000")])
    /\ Surfaced Sample.apiError e'.
Proof.
  refine (proj1 (proj2 (api_error_surfaced Sample.chainIdFromUtils
                          Sample.tokenAddressFromUtils Sample.tokenDecimalsFromUtils
                          (Units.parseUnits Sample.halfUp) unit tt Sample.encode
                          (sampleService (Throw Sample.apiError))
                          (Sample.request "1" "SRC" "DEST") []))
            Sample.apiError _ _).
  by_evaluation.
Defined.

(** USDC for USDT on Sepolia, which the sample directory does not know:
    the transactions carry the id of Sepolia, not that of the session. *)
Lemma chainId_of_every_transaction_witness :
  exists resp log',
    sampleBuild (Ret Sample.samplePriceRoute)
      {| amount := "2.5"; fromToken := "usdc"; toToken := "usdt";
         fromAddress := Sample.sampleFromAddress; fromChain := "sepolia";
         mode := Some market; slippage := Some 1%float |} []
      = (Ret resp, log')
    /\ Forall (fun t => chainId t = Js.Int 11155111) (transactions resp)
    /\ List.length (transactions resp) = 2%nat.
Proof.
  eexists. eexists. split; [by_evaluation|].
  split; [|reflexivity].
  destruct (chainId_of_every_transaction Sample.chainIdFromUtils
              Sample.tokenAddressFromUtils Sample.tokenDecimalsFromUtils
              (Units.parseUnits Sample.halfUp) unit tt Sample.encode
              (fun _ => Sample.sdk (Ret Sample.samplePriceRoute)) "6.2"
              {| amount := "2.5"; fromToken := "usdc"; toToken := "usdt";
                 fromAddress := Sample.sampleFromAddress; fromChain := "sepolia";
                 mode := Some market; slippage := Some 1%float |} [] _ _
              ltac:(by_evaluation)) as (_ & id & Hid & Hall).
  vm_compute in Hid. injection Hid as <-. exact Hall.
Defined.

Lemma validateSwapRequest_accumulates_witness :
  let r := validateSwapRequest Sample.tokenAddressFromUtils
             {| amount := "0"; fromToken := ""; toToken := "DAI";
                fromAddress := Sample.sampleFromAddress;
                fromChain := "UNSUPPORTED_CHAIN";
                mode := None; slippage := None |} in
  In "Invalid amount: must be a positive number" (errors r)
  /\ In "From token is required" (errors r)
  /\ In "Unsupported chain: UNSUPPORTED_CHAIN" (errors r)
  /\ NoDup ["Invalid amount: must be a positive number";
            "From token is required";
            "Unsupported chain: UNSUPPORTED_CHAIN"]
  /\ isValid r = false.
Proof.
  refine (proj2 (proj2 (validateSwapRequest_accumulates Sample.tokenAddressFromUtils
                          {| amount := "0"; fromToken := ""; toToken := "DAI";
                             fromAddress := Sample.sampleFromAddress;
                             fromChain := "UNSUPPORTED_CHAIN";
                             mode := None; slippage := None |})) _ _ _);
    by_evaluation.
Defined.

(** A stablecoin and another token on a chain that neither tier knows. *)
Lemma getTokenDecimalsForChain_default_witness :
  getTokenDecimalsForChain Sample.tokenDecimalsFromUtils "polygon" "usdt" = 6
  /\ getTokenDecimalsForChain Sample.tokenDecimalsFromUtils "polygon" "WBTC" = 18.
Proof.
  split.
  - refine (getTokenDecimalsForChain_default Sample.tokenDecimalsFromUtils
              "polygon" "usdt" _ _); by_evaluation.
  - refine (getTokenDecimalsForChain_default Sample.tokenDecimalsFromUtils
              "polygon" "WBTC" _ _); by_evaluation.
Defined.

(** C5, as stated, fails on an amount in exponent notation: [Number]
    reads "1e3" as one thousand and the validator accepts the request,
    while the conversion refuses the amount whatever the decimals and the
    rounding, so that no base-unit string reads back as the amount. *)
Lemma numeric_amount_refused :
  Js.Number "1e3" = Js.Decimal false 1 3
  /\ amountRejected "1e3" = false
  /\ isValid (validateSwapRequest Sample.tokenAddressFromUtils
                (Sample.request "1e3" "USDC" "DAI")) = true
  /\ (forall decimalsFromUtils roundUp chainName tokenSymbol,
        getTokenAmount decimalsFromUtils (Units.parseUnits roundUp)
          "1e3" chainName tokenSymbol
        = Throw (Error "Failed to parse token amount: 1e3"))
  /\ sampleBuild (Ret Sample.samplePriceRoute) (Sample.request "1e3" "USDC" "DAI") []
     = (Throw (Error "Failed to parse token amount: 1e3"), []).
Proof.
  split; [by_evaluation|]. split; [by_evaluation|]. split; [by_evaluation|].
  split; [intros; reflexivity | by_evaluation].
Defined.

(** An amount with more digits than USDC has decimals, rounded to within
    one base unit, and an amount with fewer, converted exactly. *)
Lemma amount_round_trip_witness :
  (exists n,
     getTokenAmount Sample.tokenDecimalsFromUtils (Units.parseUnits Sample.halfUp)
       "1.2345678" "ETHEREUM" "USDC" = Ret (Js.bigIntToString n)
     /\ Js.stringToBigInt (Js.bigIntToString n) = Some n
     /\ Z.abs (n * 10 ^ 7 - 12345678 * 10 ^ 6) < 10 ^ 7)
  /\ getTokenAmount Sample.tokenDecimalsFromUtils (Units.parseUnits Sample.halfUp)
       "2.5" "ETHEREUM" "USDC" = Ret "2500000".
Proof.
  assert (Hd : 0 <= getTokenDecimalsForChain Sample.tokenDecimalsFromUtils
                      "ETHEREUM" "USDC")
    by (apply Z.leb_le; by_evaluation).
  split.
  - destruct (proj1 (amount_round_trip Sample.tokenDecimalsFromUtils Sample.halfUp
                       "1.2345678" "ETHEREUM" "USDC" Hd)
                false ["1"%char] true (Js.chars "2345678"))
      as (n & Hn & Hs & _ & Hb & _).
    + split; try reflexivity. discriminate.
    + discriminate.
    + exists n. split; [exact Hn|]. split; [exact Hs|]. exact Hb.
  - destruct (proj1 (amount_round_trip Sample.tokenDecimalsFromUtils Sample.halfUp
                       "2.5" "ETHEREUM" "USDC" Hd)
                false ["2"%char] true ["5"%char])
      as (n & Hn & _ & _ & _ & Hexact).
    + split; try reflexivity. discriminate.
    + discriminate.
    + rewrite Hn. f_equal.
      assert (En : n = 2500000).
      { assert (E : n * 10 = 25000000)
          by (apply Hexact; exists 2500000; reflexivity).
        lia. }
      rewrite En. by_evaluation.
Defined.

(** ** The further properties on the sample collaborators *)

Local Abbreviation sampleTool quoted :=
  (buildSwapTransactionsTool Sample.chainIdFromUtils Sample.tokenAddressFromUtils
     Sample.tokenDecimalsFromUtils (Units.parseUnits Sample.halfUp) unit tt Sample.encode
     (fun _ => Sample.sdk quoted) "6.2"
     (fun payload =>
        Ret (if Nat.eqb (transactionCount payload) 2
             then "approval and swap" else "swap"))
     (fun _ => true)).

Lemma resolution_ignores_case_witness :
  getTokenAddressForChain Sample.tokenAddressFromUtils "Ethereum" "usdc"
    = Ret "0xA0b86991c6218b36c1d19D4a2e9Eb0cE3606eB48"
  <-> getTokenAddressForChain Sample.tokenAddressFromUtils "ETHEREUM" "USDC"
    = Ret "0xA0b86991c6218b36c1d19D4a2e9Eb0cE3606eB48".
Proof.
  refine (proj1 (proj2 (proj2
            (resolution_ignores_case Sample.chainIdFromUtils
               Sample.tokenAddressFromUtils Sample.tokenDecimalsFromUtils
               "Ethereum" "ETHEREUM" "usdc" "USDC" _ _))) _); by_evaluation.
Defined.

(** USDC on Sepolia, which only the fallback tables know. *)
Lemma fallback_token_decimals_listed_witness :
  fallbackAddress "sepolia" "usdc" = Some "0x1c7D4B196Cb0C7B01d743Fbc6116a902379C7238"
  /\ fallbackDecimals "sepolia" "usdc"
     = Some (getTokenDecimalsForChain Sample.tokenDecimalsFromUtils "sepolia" "usdc")
  /\ (getTokenDecimalsForChain Sample.tokenDecimalsFromUtils "sepolia" "usdc" = 6
      \/ getTokenDecimalsForChain Sample.tokenDecimalsFromUtils "sepolia" "usdc" = 18).
Proof.
  refine (fallback_token_decimals_listed Sample.tokenAddressFromUtils
            Sample.tokenDecimalsFromUtils "sepolia" "usdc"
            "0x1c7D4B196Cb0C7B01d743Fbc6116a902379C7238" _ _ _); by_evaluation.
Defined.

Lemma invalid_request_makes_no_call_witness :
  sampleBuild (Ret Sample.samplePriceRoute) (Sample.request "0" "USDC" "DAI") []
  = (Throw (Error "Invalid request: Invalid amount: must be a positive number"), []).
Proof.
  pose proof (invalid_request_makes_no_call Sample.chainIdFromUtils
                Sample.tokenAddressFromUtils Sample.tokenDecimalsFromUtils
                (Units.parseUnits Sample.halfUp) unit tt Sample.encode
                (sampleService (Ret Sample.samplePriceRoute))
                (Sample.request "0" "USDC" "DAI") [] ltac:(by_evaluation)) as H.
  destruct H as [H _]. rewrite H. by_evaluation.
Defined.

(** The pricing call fails: one call was made. *)
Lemma remote_calls_in_order_witness :
  exists r log' calls,
    sampleBuild (Throw Sample.apiError) (Sample.request "1" "USDC" "DAI") []
      = (r, log')
    /\ log' = [] ++ calls
    /\ List.length calls = 1%nat.
Proof.
  eexists. eexists.
  destruct (remote_calls_in_order Sample.chainIdFromUtils
              Sample.tokenAddressFromUtils Sample.tokenDecimalsFromUtils
              (Units.parseUnits Sample.halfUp) unit tt Sample.encode
              (sampleService (Throw Sample.apiError))
              (Sample.request "1" "USDC" "DAI") [] _ _ ltac:(by_evaluation))
    as (calls & E & _).
  exists calls. split; [by_evaluation|]. split; [exact E|].
  cbn [app] in E. now rewrite <- E.
Defined.

Lemma quote_of_successful_build_witness :
  exists resp log',
    sampleBuild (Ret Sample.marketQuote) (Sample.request "1" "USDC" "DAI") []
      = (Ret resp, log')
    /\ exists q call,
        sampleQuote (Ret Sample.marketQuote) (Sample.request "1" "USDC" "DAI") []
          = (Ret q, [] ++ [call])
        /\ priceRouteOf q = quote resp
        /\ firstn 1 (skipn (List.length (@nil Call)) log') = [call].
Proof.
  eexists. eexists. split; [by_evaluation|].
  eapply (quote_of_successful_build Sample.chainIdFromUtils
            Sample.tokenAddressFromUtils Sample.tokenDecimalsFromUtils
            (Units.parseUnits Sample.halfUp) unit tt Sample.encode
            (sampleService (Ret Sample.marketQuote))
            (Sample.request "1" "USDC" "DAI") []).
  by_evaluation.
Defined.

Lemma swap_transaction_of_reply_witness :
  exists resp log',
    sampleBuild (Ret Sample.samplePriceRoute) (Sample.request "1" "USDC" "DAI") []
      = (Ret resp, log')
    /\ exists p tx pre swap,
        buildTx (Sample.sdk (Ret Sample.samplePriceRoute)) p = Ret (Some tx)
        /\ transactions resp = pre ++ [swap]
        /\ Some (to swap) = tx_to tx
        /\ data swap = tx_data tx
        /\ value swap = match tx_value tx with
                        | Some v => if Js.nonEmpty v then v else "0"
                        | None => "0"
                        end
        /\ gasNormalised (tx_gasPrice tx) (gasPrice swap)
        /\ gasNormalised (tx_gas tx) (gasLimit swap).
Proof.
  eexists. eexists. split; [by_evaluation|].
  eapply (swap_transaction_of_reply Sample.chainIdFromUtils
            Sample.tokenAddressFromUtils Sample.tokenDecimalsFromUtils
            (Units.parseUnits Sample.halfUp) unit tt Sample.encode
            (sampleService (Ret Sample.samplePriceRoute))
            (Sample.request "1" "USDC" "DAI") []).
  by_evaluation.
Defined.

Lemma transactions_are_complete_witness :
  exists resp log',
    sampleBuild (Ret Sample.samplePriceRoute) (Sample.request "1" "USDC" "DAI") []
      = (Ret resp, log')
    /\ Forall (fun t => Js.nonEmpty (to t) = true
                        /\ isSome (data t) = true
                        /\ Js.nonEmpty (value t) = true)
         (transactions resp).
Proof.
  eexists. eexists. split; [by_evaluation|].
  eapply (transactions_are_complete Sample.chainIdFromUtils
            Sample.tokenAddressFromUtils Sample.tokenDecimalsFromUtils
            (Units.parseUnits Sample.halfUp) unit tt Sample.encode
            (sampleService (Ret Sample.samplePriceRoute))
            (Sample.request "1" "USDC" "DAI") []).
  by_evaluation.
Defined.

Lemma valid_request_validateTokens_witness :
  validateTokens Sample.tokenAddressFromUtils
    (sampleService (Ret Sample.samplePriceRoute)) "ETHEREUM" "USDC" "DAI" []
  = (Ret true, []).
Proof.
  refine (valid_request_validateTokens Sample.chainIdFromUtils
            Sample.tokenAddressFromUtils
            (sampleService (Ret Sample.samplePriceRoute))
            (Sample.request "1" "USDC" "DAI") [] _).
  by_evaluation.
Defined.

(** A chain that is not supported, with tokens nobody knows. *)
Lemma unsupported_chain_skips_tokens_witness :
  errors (validateSwapRequest Sample.tokenAddressFromUtils
            {| amount := "1"; fromToken := "FOO"; toToken := "BAR";
               fromAddress := Sample.sampleFromAddress; fromChain := "SOLANA";
               mode := None; slippage := None |})
  = ["Unsupported chain: SOLANA"].
Proof.
  rewrite (unsupported_chain_skips_tokens Sample.tokenAddressFromUtils
             {| amount := "1"; fromToken := "FOO"; toToken := "BAR";
                fromAddress := Sample.sampleFromAddress; fromChain := "SOLANA";
                mode := None; slippage := None |} ltac:(by_evaluation)).
  by_evaluation.
Defined.

Lemma tool_result_witness :
  exists res log',
    sampleTool (Ret Sample.samplePriceRoute) (Sample.request "0.1" "ETH" "DAI") []
      = (res, log')
    /\ isError res = false
    /\ text res = "swap".
Proof.
  eexists. eexists. split; [by_evaluation|].
  split; [reflexivity|].
  destruct (proj1 (tool_result Sample.chainIdFromUtils Sample.tokenAddressFromUtils
                     Sample.tokenDecimalsFromUtils (Units.parseUnits Sample.halfUp) unit tt
                     Sample.encode (fun _ => Sample.sdk (Ret Sample.samplePriceRoute))
                     "6.2"
                     (fun payload =>
                        Ret (if Nat.eqb (transactionCount payload) 2
                             then "approval and swap" else "swap"))
                     (fun _ => true)
                     (Sample.request "0.1" "ETH" "DAI") [] _ _
                     ltac:(by_evaluation)) eq_refl)
    as (resp & payload & _ & Hs & _).
  reflexivity.
Defined.
